(** * The image transformation Lambda of aws-image-optimization

    A shallow embedding of [exports.handler] (functions/image-processing,
    kept in src/bin/image-optimization.ts) and of the JavaScript built-ins it
    relies on.  The AWS S3 client, the Sharp image engine and the clock are
    external services: they are Section variables of the handler, and a small
    set of in-memory stand-ins is given for concrete runs. *)

From Stdlib Require Import ZArith Ascii String Strings.Byte List Bool.
From stdpp Require Import base option list strings gmap.

Local Open Scope string_scope.
Local Open Scope list_scope.
Local Open Scope Z_scope.

(** ** JavaScript built-ins used by the handler *)

Module Js.

(** [String.prototype.split] with a one-character separator: the result
    always has at least one element, [split sep ""] being [[""]]. *)
Fixpoint split (sep : ascii) (s : string) : list string :=
  match s with
  | EmptyString => [EmptyString]
  | String c rest =>
      if Ascii.eqb c sep then EmptyString :: split sep rest
      else match split sep rest with
           | [] => [String c EmptyString]
           | w :: ws => String c w :: ws
           end
  end.

(** [Array.prototype.join] on an array of strings. *)
Fixpoint join (sep : string) (l : list string) : string :=
  match l with
  | [] => ""
  | [w] => w
  | w :: ws => w +:+ sep +:+ join sep ws
  end.

(** [Array.prototype.pop]: the array without its last element, and that
    element ([undefined] on an empty array). *)
Definition pop (l : list string) : list string * option string :=
  (removelast l, last l).

(** [Array.prototype.shift], of which the handler drops the result. *)
Definition shift (l : list string) : list string := tail l.

(** Truthiness of a value that is a string or [undefined] ([None]). *)
Definition truthy (v : option string) : bool :=
  match v with
  | Some s => negb (String.eqb s "")
  | None => false
  end.

(** Numbers as [parseInt] produces them: [NaN] or an integer.  The rounding
    of integers beyond 2^53 to the nearest double is left out. *)
Inductive number : Type :=
| NaN
| Int (z : Z).

Definition is_white (c : ascii) : bool :=
  let n := N_of_ascii c in
  ((9 <=? n) && (n <=? 13))%N || (n =? 32)%N.

Fixpoint trim_start (s : string) : string :=
  match s with
  | String c rest => if is_white c then trim_start rest else s
  | EmptyString => EmptyString
  end.

Definition digit_of (radix : Z) (c : ascii) : option Z :=
  let n := Z.of_N (N_of_ascii c) in
  let d := if (48 <=? n) && (n <=? 57) then Some (n - 48)
           else if (97 <=? n) && (n <=? 122) then Some (n - 87)
           else if (65 <=? n) && (n <=? 90) then Some (n - 55)
           else None in
  match d with
  | Some v => if v <? radix then Some v else None
  | None => None
  end.

(** The longest prefix of digits of the radix; [None] when it is empty. *)
Fixpoint digits (radix : Z) (s : string) (acc : option Z) : option Z :=
  match s with
  | EmptyString => acc
  | String c rest =>
      match digit_of radix c with
      | Some d => digits radix rest (Some (radix * default 0 acc + d))
      | None => acc
      end
  end.

(** [parseInt(s)] without a radix argument: leading white space, a sign,
    an optional [0x] prefix, then digits up to the first other character.
    White space is the one of the ASCII range; the Unicode spaces that
    JavaScript skips as well are left out. *)
Definition parseInt (s : string) : number :=
  let s := trim_start s in
  let '(sign, s) :=
    match s with
    | String "-" rest => (-1, rest)
    | String "+" rest => (1, rest)
    | _ => (1, s)
    end in
  let '(radix, s) :=
    match s with
    | String "0" (String "x" rest) => (16, rest)
    | String "0" (String "X" rest) => (16, rest)
    | _ => (10, s)
    end in
  match digits radix s None with
  | Some n => Int (sign * n)
  | None => NaN
  end.

(** [Buffer.prototype.toString('base64')]. *)
Definition base64_alphabet : string :=
  "ABCDEFGHIJKLMNOPQRSTUVWXYZabcdefghijklmnopqrstuvwxyz0123456789+/".

Definition sextet (n : N) : ascii :=
  default "="%char (String.get (N.to_nat n) base64_alphabet).

Fixpoint base64 (bs : list Byte.byte) : string :=
  match bs with
  | [] => ""
  | [a] =>
      let a := Byte.to_N a in
      String (sextet (a / 4)) (String (sextet (a mod 4 * 16)) "==")
  | [a; b] =>
      let a := Byte.to_N a in
      let b := Byte.to_N b in
      String (sextet (a / 4))
        (String (sextet (a mod 4 * 16 + b / 16))
           (String (sextet (b mod 16 * 4)) "="))
  | a :: b :: c :: rest =>
      let a := Byte.to_N a in
      let b := Byte.to_N b in
      let c := Byte.to_N c in
      String (sextet (a / 4))
        (String (sextet (a mod 4 * 16 + b / 16))
           (String (sextet (b mod 16 * 4 + c / 64))
              (String (sextet (c mod 64)) (base64 rest))))
  end%N.

End Js.

(** ** Data of the handler *)

Abbreviation Buffer := (list Byte.byte).

(** A thrown or rejected JavaScript value, kept as its message. *)
Abbreviation Error := string (only parsing).

Inductive result (A : Type) : Type :=
| Resolved (a : A)
| Rejected (e : Error).
Arguments Resolved {A} a.
Arguments Rejected {A} e.

(** The Lambda function URL event, as far as the handler reads it: the
    headers are always there, a header that was not sent has no entry. *)
Record Http := { method : string; path : string }.
Record RequestContext := { http : option Http }.
Record Event := {
  headers : gmap string string;
  requestContext : option RequestContext
}.

(** [process.env]: every variable is a string or is unset. *)
Record Env := {
  originalImageBucketName : option string;
  transformedImageBucketName : option string;
  transformedImageCacheTTL : option string;
  secretKey : option string;
  logTiming : option string
}.

Record GetObjectRequest := { get_Bucket : option string; get_Key : string }.
Record GetObjectOutput := { Body : Buffer; ContentType : option string }.

Record PutObjectRequest := {
  put_Body : Buffer;
  put_Bucket : option string;
  put_Key : string;
  put_ContentType : option string;
  put_Metadata_cache_control : option string
}.

(** The calls chained on a Sharp instance. *)
Record ResizeOptions := {
  width : option Js.number;
  height : option Js.number
}.

Inductive SharpCall : Type :=
| rotate
| resize (options : ResizeOptions)
| toFormat (format : string) (quality : option Js.number).

(** The object the handler resolves to.  The error object of [sendError] has
    neither [isBase64Encoded] nor [headers]: [false] and [None] here. *)
Record ResponseHeaders := {
  Content_Type : option string;
  Cache_Control : option string
}.

Record Response := {
  statusCode : Z;
  body : string;
  isBase64Encoded : bool;
  response_headers : option ResponseHeaders
}.

(** What leaves the handler, in the order it happens. *)
Inductive LogArg : Type :=
| LogString (s : string)
| LogEvent (e : Event)
| LogError (e : Error).

Inductive Effect : Type :=
| ConsoleLog (args : list LogArg)
| S3GetObject (req : GetObjectRequest)
| SharpNew (input : Buffer)
| SharpChain (input : Buffer) (calls : list SharpCall)
| S3PutObject (req : PutObjectRequest).

(** An invocation resolves to a response or rejects with an exception. *)
Inductive Outcome : Type :=
| Returned (r : Response)
| Threw (e : Error).

(** ** A monad for early [return], [throw] and the trace of effects *)

Inductive Step (A : Type) : Type :=
| Go (a : A)
| Stop (o : Outcome).
Arguments Go {A} a.
Arguments Stop {A} o.

Definition M (A : Type) : Type := list Effect -> Step A * list Effect.

Definition ret {A} (a : A) : M A := fun t => (Go a, t).

Definition bind {A B} (m : M A) (f : A -> M B) : M B :=
  fun t =>
    match m t with
    | (Go a, t') => f a t'
    | (Stop o, t') => (Stop o, t')
    end.

Definition emit (e : Effect) : M unit := fun t => (Go tt, t ++ [e]).
Definition return_ {A} (r : Response) : M A := fun t => (Stop (Returned r), t).
Definition throw {A} (e : Error) : M A := fun t => (Stop (Threw e), t).

Declare Scope handler_scope.
Delimit Scope handler_scope with handler.
Notation "x <- m ;; k" := (bind m (fun x => k))
  (at level 100, m at next level, right associativity) : handler_scope.
Notation "m ;; k" := (bind m (fun _ => k))
  (at level 100, right associativity) : handler_scope.

(** The outcome of a whole invocation, from an empty trace. *)
Definition run (m : M Response) : Outcome * list Effect :=
  match m [] with
  | (Go r, t) => (Returned r, t)
  | (Stop o, t) => (o, t)
  end.

(** ** The pure parts of the handler *)

(** [sendError(code, message, error)]: two [console.log]s and the object. *)
Definition sendError (code : Z) (message : string) (error : LogArg) : M Response :=
  (emit (ConsoleLog [LogString "APPLICATION ERROR"; LogString message]) ;;
   emit (ConsoleLog [error]) ;;
   ret {| statusCode := code; body := message;
          isBase64Encoded := false; response_headers := None |})%handler.

(** Lines 82-87: [split], [pop], [shift], [join]. *)
Definition parsePath (path : string) : string * option string :=
  let imagePathArray := Js.split "/" path in
  let '(imagePathArray, operationsPrefix) := Js.pop imagePathArray in
  let imagePathArray := Js.shift imagePathArray in
  (Js.join "/" imagePathArray, operationsPrefix).

Definition originalImagePath (path : string) : string := fst (parsePath path).
Definition operationsPrefix (path : string) : option string := snd (parsePath path).

(** [operations[k] = v] on an object created by [{}]: the own properties are a
    map to strings or [undefined] ([Some None]).  Assigning a string or
    [undefined] to [__proto__] reaches the setter of [Object.prototype], which
    ignores values that are not objects. *)
Definition set_prop (o : gmap string (option string)) (k : string) (v : option string)
  : gmap string (option string) :=
  if decide (k = "__proto__") then o else <[k := v]> o.

(** [operations[k]] for a key that [Object.prototype] does not define, which
    holds of the four keys the handler reads. *)
Definition get_prop (o : gmap string (option string)) (k : string) : option string :=
  match o !! k with
  | Some v => v
  | None => None
  end.

(** Lines 106-109: the callback of [forEach]. *)
Definition assign_operation (operations : gmap string (option string)) (operation : string)
  : gmap string (option string) :=
  let operationKV := Js.split "=" operation in
  set_prop operations (default "undefined" (operationKV !! 0%nat)) (operationKV !! 1%nat).

(** Lines 104-109. *)
Definition parseOperations (operationsPrefix : string) : gmap string (option string) :=
  let operationsArray := Js.split "," operationsPrefix in
  fold_left assign_operation operationsArray ∅.

(** Lines 120-122: the options handed to [resize]. *)
Definition resizingOptions (operations : gmap string (option string)) : ResizeOptions :=
  {| width := if Js.truthy (get_prop operations "width")
              then Js.parseInt <$> get_prop operations "width" else None;
     height := if Js.truthy (get_prop operations "height")
               then Js.parseInt <$> get_prop operations "height" else None |}.

(** Lines 117-142: the calls chained on the Sharp instance inside the [try]
    block, before [toBuffer], and the content type after them.  The object
    [resizingOptions] is truthy, so [resize] is always called. *)
Definition transformation (operations : gmap string (option string))
    (contentType : option string) : list SharpCall * option string :=
  let calls := [rotate; resize (resizingOptions operations)] in
  if Js.truthy (get_prop operations "format") then
    let format := default "" (get_prop operations "format") in
    let '(contentType, isLossy) :=
      if String.eqb format "jpeg" then (Some "image/jpeg", true)
      else if String.eqb format "svg" then (Some "image/svg+xml", false)
      else if String.eqb format "gif" then (Some "image/gif", false)
      else if String.eqb format "webp" then (Some "image/webp", true)
      else if String.eqb format "png" then (Some "image/png", false)
      else if String.eqb format "avif" then (Some "image/avif", true)
      else (Some "image/jpeg", true) in
    if Js.truthy (get_prop operations "quality") && isLossy then
      (calls ++ [toFormat format (Js.parseInt <$> get_prop operations "quality")], contentType)
    else (calls ++ [toFormat format None], contentType)
  else (calls, contentType).

(** ** The handler *)

Section Handler.

(** The module-level constants read from [process.env]. *)
Variable env : Env.
Let S3_ORIGINAL_IMAGE_BUCKET := originalImageBucketName env.
Let S3_TRANSFORMED_IMAGE_BUCKET := transformedImageBucketName env.
Let TRANSFORMED_IMAGE_CACHE_TTL := transformedImageCacheTTL env.
Let SECRET_KEY := secretKey env.
Let LOG_TIMING := logTiming env.

(** The S3 client: [getObject(...).promise()] and [putObject(...).promise()]. *)
Variable S3_getObject : GetObjectRequest -> result GetObjectOutput.
Variable S3_putObject : PutObjectRequest -> result unit.

(** The Sharp engine.  [Sharp_new input] is the exception of the constructor
    [Sharp(input)], if it throws; [Sharp_chain input calls] is the value of
    [Sharp(input).c1(...)....cn(...).toBuffer()] for the calls [c1 .. cn],
    rejected when one of the calls throws or the output cannot be made. *)
Variable Sharp_new : Buffer -> option Error.
Variable Sharp_chain : Buffer -> list SharpCall -> result Buffer.

(** The text of [parseInt(performance.now() - startTime)] at the three
    places where the handler measures: fetch, transform, write. *)
Variable elapsed : nat -> string.

Definition handler (event : Event) : M Response :=
  (* Validate that the request is coming from CloudFront. *)
  let secret := headers event !! "x-origin-secret-header" in
  if negb (Js.truthy secret) || negb (bool_decide (secret = SECRET_KEY)) then
    (r <- sendError 403 "Request unauthorized." (LogEvent event) ;; return_ r)%handler
  else
  (* Validate that it is a GET request. *)
  match requestContext event ≫= http with
  | None =>
      (r <- sendError 400 "Only GET method is supported." (LogEvent event) ;; return_ r)%handler
  | Some request =>
  if negb (String.eqb (method request) "GET") then
    (r <- sendError 400 "Only GET method is supported." (LogEvent event) ;; return_ r)%handler
  else
  match parsePath (path request) with
  | (_, None) =>
      (* [pop] of an empty array, which [split] never returns *)
      throw "TypeError: Cannot read properties of undefined (reading 'split')"
  | (originalImagePath, Some operationsPrefix) =>
  let timingLog := "perf " in
  (* Download original image. *)
  let get := {| get_Bucket := S3_ORIGINAL_IMAGE_BUCKET; get_Key := originalImagePath |} in
  (emit (S3GetObject get) ;;
   originalImage <-
     match S3_getObject get with
     | Resolved o => ret o
     | Rejected error =>
         r <- sendError 500 "Error downloading original image." (LogError error) ;; return_ r
     end ;;
   let contentType := ContentType originalImage in
   (* Split operationsPrefix into individual fields. *)
   let operations := parseOperations operationsPrefix in
   (* Perform the requested image transformation. *)
   emit (SharpNew (Body originalImage)) ;;
   match Sharp_new (Body originalImage) with Some error => throw error | None => ret tt end ;;
   let timingLog := timingLog +:+ elapsed 0 +:+ " " in
   let '(calls, contentType) := transformation operations contentType in
   emit (SharpChain (Body originalImage) calls) ;;
   sharpImage <-
     match Sharp_chain (Body originalImage) calls with
     | Resolved buffer => ret buffer
     | Rejected error =>
         r <- sendError 500 "error transforming image" (LogError error) ;; return_ r
     end ;;
   let timingLog := timingLog +:+ elapsed 1 +:+ " " in
   (* Upload transformed image back to S3 if this feature is enabled. *)
   (if Js.truthy S3_TRANSFORMED_IMAGE_BUCKET then
      let put := {| put_Body := sharpImage;
                    put_Bucket := S3_TRANSFORMED_IMAGE_BUCKET;
                    put_Key := originalImagePath +:+ "/" +:+ operationsPrefix;
                    put_ContentType := contentType;
                    put_Metadata_cache_control := TRANSFORMED_IMAGE_CACHE_TTL |} in
      emit (S3PutObject put) ;;
      match S3_putObject put with
      | Resolved _ => ret tt
      | Rejected error =>
          r <- sendError 500 "Could not upload transformed image to S3." (LogError error) ;;
          return_ r
      end
    else ret tt) ;;
   let timingLog := timingLog +:+ elapsed 2 +:+ " " in
   (if bool_decide (LOG_TIMING = Some "true")
    then emit (ConsoleLog [LogString timingLog]) else ret tt) ;;
   (* Return the transformed image. *)
   ret {| statusCode := 200;
          body := Js.base64 sharpImage;
          isBase64Encoded := true;
          response_headers :=
            Some {| Content_Type := contentType;
                    Cache_Control := TRANSFORMED_IMAGE_CACHE_TTL |} |})%handler
  end
  end.

End Handler.

(** ** Notions used to state the properties of the handler *)

(** The secret header is sent, is not empty and is the configured key. *)
Definition Authenticated (env : Env) (event : Event) : Prop :=
  exists s, headers event !! "x-origin-secret-header" = Some s /\ s <> "" /\
            secretKey env = Some s.

(** The event carries an HTTP description whose method is GET. *)
Definition GetRequest (event : Event) (request : Http) : Prop :=
  requestContext event ≫= http = Some request /\ method request = "GET".

Definition is_fetch (e : Effect) : bool :=
  match e with S3GetObject _ => true | _ => false end.

Definition is_storage (e : Effect) : bool :=
  match e with S3GetObject _ | S3PutObject _ => true | _ => false end.

Definition is_engine (e : Effect) : bool :=
  match e with SharpNew _ | SharpChain _ _ => true | _ => false end.

(** How often an invocation did something of a kind. *)
Definition calls (kind : Effect -> bool) (trace : list Effect) : nat :=
  length (filter (fun e => kind e = true) trace).

(** The key and the value of one [key=value] segment of the operations token. *)
Definition segment_key (segment : string) : string :=
  default "undefined" (Js.split "=" segment !! 0%nat).

Definition segment_value (segment : string) : option string :=
  Js.split "=" segment !! 1%nat.

(** The value of the last segment with the key [k], if there is one. *)
Definition last_occurrence (k : string) (segments : list string) : option (option string) :=
  (fun found => segment_value (snd found))
    <$> list_find (fun segment => segment_key segment = k) (reverse segments).

Definition recognized_keys : list string := ["format"; "width"; "height"; "quality"].
Definition recognized_formats : list string := ["jpeg"; "png"; "gif"; "webp"; "avif"; "svg"].
Definition lossless_formats : list string := ["png"; "gif"; "svg"].

(** The request path shape of the documentation:
    [/<routingPrefix>/<originalImagePath...>/<operationsToken>]. *)
Definition documented_path (routingPrefix : string) (originalPath : list string)
    (operationsToken : string) : string :=
  "/" +:+ routingPrefix +:+ "/" +:+ Js.join "/" originalPath +:+ "/" +:+ operationsToken.

(** [String.prototype.includes] for one character. *)
Fixpoint includes (c : ascii) (s : string) : bool :=
  match s with
  | EmptyString => false
  | String x rest => Ascii.eqb x c || includes c rest
  end.

(** The objects the handler builds, named to state what it returns. *)
Definition error_response (code : Z) (message : string) : Response :=
  {| statusCode := code; body := message;
     isBase64Encoded := false; response_headers := None |}.

Definition error_log (message : string) (error : LogArg) : list Effect :=
  [ConsoleLog [LogString "APPLICATION ERROR"; LogString message]; ConsoleLog [error]].

Definition image_response (env : Env) (buffer : Buffer) (contentType : option string)
  : Response :=
  {| statusCode := 200; body := Js.base64 buffer; isBase64Encoded := true;
     response_headers :=
       Some {| Content_Type := contentType;
               Cache_Control := transformedImageCacheTTL env |} |}.

Definition fetch_request (env : Env) (path : string) : GetObjectRequest :=
  {| get_Bucket := originalImageBucketName env; get_Key := originalImagePath path |}.

Definition store_request (env : Env) (path operationsToken : string) (buffer : Buffer)
    (contentType : option string) : PutObjectRequest :=
  {| put_Body := buffer;
     put_Bucket := transformedImageBucketName env;
     put_Key := originalImagePath path +:+ "/" +:+ operationsToken;
     put_ContentType := contentType;
     put_Metadata_cache_control := transformedImageCacheTTL env |}.

Definition timing_log (env : Env) (elapsed : nat -> string) : list Effect :=
  if bool_decide (logTiming env = Some "true")
  then [ConsoleLog [LogString ((("perf " +:+ elapsed 0%nat +:+ " ") +:+ elapsed 1%nat +:+ " ")
                                 +:+ elapsed 2%nat +:+ " ")]]
  else [].

(** The ways an invocation ends, gate by gate, with what it did. *)
Section Ends.

Variable env : Env.
Variable S3_getObject : GetObjectRequest -> result GetObjectOutput.
Variable S3_putObject : PutObjectRequest -> result unit.
Variable Sharp_new : Buffer -> option Error.
Variable Sharp_chain : Buffer -> list SharpCall -> result Buffer.
Variable elapsed : nat -> string.
Variable event : Event.

Inductive Reached (request : Http) (token : string) : Prop :=
| reached :
    Authenticated env event -> GetRequest event request ->
    operationsPrefix (path request) = Some token ->
    Reached request token.

Inductive Ends : Outcome -> list Effect -> Prop :=
| ends_unauthorized :
    (let secret := headers event !! "x-origin-secret-header" in
     Js.truthy secret = false \/ secret <> secretKey env) ->
    Ends (Returned (error_response 403 "Request unauthorized."))
         (error_log "Request unauthorized." (LogEvent event))
| ends_not_get :
    Authenticated env event ->
    method <$> (requestContext event ≫= http) <> Some "GET" ->
    Ends (Returned (error_response 400 "Only GET method is supported."))
         (error_log "Only GET method is supported." (LogEvent event))
| ends_fetch_rejected request token error :
    Reached request token ->
    S3_getObject (fetch_request env (path request)) = Rejected error ->
    Ends (Returned (error_response 500 "Error downloading original image."))
         (S3GetObject (fetch_request env (path request))
            :: error_log "Error downloading original image." (LogError error))
| ends_constructor_throws request token image error :
    Reached request token ->
    S3_getObject (fetch_request env (path request)) = Resolved image ->
    Sharp_new (Body image) = Some error ->
    Ends (Threw error)
         [S3GetObject (fetch_request env (path request)); SharpNew (Body image)]
| ends_transform_rejected request token image error :
    Reached request token ->
    S3_getObject (fetch_request env (path request)) = Resolved image ->
    Sharp_new (Body image) = None ->
    let plan := transformation (parseOperations token) (ContentType image) in
    Sharp_chain (Body image) (fst plan) = Rejected error ->
    Ends (Returned (error_response 500 "error transforming image"))
         ([S3GetObject (fetch_request env (path request)); SharpNew (Body image);
           SharpChain (Body image) (fst plan)]
            ++ error_log "error transforming image" (LogError error))
| ends_write_rejected request token image buffer error :
    Reached request token ->
    S3_getObject (fetch_request env (path request)) = Resolved image ->
    Sharp_new (Body image) = None ->
    let plan := transformation (parseOperations token) (ContentType image) in
    let store := store_request env (path request) token buffer (snd plan) in
    Sharp_chain (Body image) (fst plan) = Resolved buffer ->
    Js.truthy (transformedImageBucketName env) = true ->
    S3_putObject store = Rejected error ->
    Ends (Returned (error_response 500 "Could not upload transformed image to S3."))
         ([S3GetObject (fetch_request env (path request)); SharpNew (Body image);
           SharpChain (Body image) (fst plan)]
            ++ S3PutObject store
            :: error_log "Could not upload transformed image to S3." (LogError error))
| ends_stored request token image buffer :
    Reached request token ->
    S3_getObject (fetch_request env (path request)) = Resolved image ->
    Sharp_new (Body image) = None ->
    let plan := transformation (parseOperations token) (ContentType image) in
    let store := store_request env (path request) token buffer (snd plan) in
    Sharp_chain (Body image) (fst plan) = Resolved buffer ->
    Js.truthy (transformedImageBucketName env) = true ->
    S3_putObject store = Resolved tt ->
    Ends (Returned (image_response env buffer (snd plan)))
         ([S3GetObject (fetch_request env (path request)); SharpNew (Body image);
           SharpChain (Body image) (fst plan)]
            ++ S3PutObject store :: timing_log env elapsed)
| ends_not_stored request token image buffer :
    Reached request token ->
    S3_getObject (fetch_request env (path request)) = Resolved image ->
    Sharp_new (Body image) = None ->
    let plan := transformation (parseOperations token) (ContentType image) in
    Sharp_chain (Body image) (fst plan) = Resolved buffer ->
    Js.truthy (transformedImageBucketName env) = false ->
    Ends (Returned (image_response env buffer (snd plan)))
         ([S3GetObject (fetch_request env (path request)); SharpNew (Body image);
           SharpChain (Body image) (fst plan)]
            ++ timing_log env elapsed).

End Ends.

(** ** In-memory stand-ins for the external services *)

Module Mock.

Definition deployment (store secret log : option string) : Env :=
  {| originalImageBucketName := Some "originals";
     transformedImageBucketName := store;
     transformedImageCacheTTL := Some "max-age=31622400";
     secretKey := secret;
     logTiming := log |}.

Definition env : Env := deployment (Some "transformed") (Some "0123abcd") (Some "false").

(** The same deployment without the bucket for transformed images. *)
Definition env_no_store : Env := deployment None (Some "0123abcd") (Some "true").

Definition image : GetObjectOutput :=
  {| Body := ["J"; "F"; "I"; "F"]%byte; ContentType := Some "image/jpeg" |}.

Definition originals : gmap string GetObjectOutput :=
  {[ "images/rio/1.jpg" := image ]}.

Definition S3_getObject (req : GetObjectRequest) : result GetObjectOutput :=
  if bool_decide (get_Bucket req = Some "originals") then
    match originals !! get_Key req with
    | Some o => Resolved o
    | None => Rejected "NoSuchKey: The specified key does not exist."
    end
  else Rejected "NoSuchBucket: The specified bucket does not exist".

Definition S3_putObject (req : PutObjectRequest) : result unit := Resolved tt.

Definition S3_putObject_denied (req : PutObjectRequest) : result unit :=
  Rejected "AccessDenied: Access Denied".

Definition Sharp_new (input : Buffer) : option Error := None.

(** An engine that checks its parameters the way Sharp documents them (a
    dimension is a positive integer, the output format is one Sharp
    writes, a quality is an integer from 1 to 100) and hands back the
    bytes it was given. *)
Definition output_formats : list string :=
  ["jpeg"; "jpg"; "png"; "webp"; "gif"; "avif"; "heif"; "tiff"; "tif"; "raw"].

Definition positive_integer (n : option Js.number) : bool :=
  match n with
  | None => true
  | Some (Js.Int z) => 0 <? z
  | Some Js.NaN => false
  end.

Definition valid_call (c : SharpCall) : bool :=
  match c with
  | rotate => true
  | resize options => positive_integer (width options) && positive_integer (height options)
  | toFormat format quality =>
      bool_decide (format ∈ output_formats) &&
      match quality with
      | None => true
      | Some (Js.Int z) => (1 <=? z) && (z <=? 100)
      | Some Js.NaN => false
      end
  end.

Definition Sharp_chain (input : Buffer) (calls : list SharpCall) : result Buffer :=
  if forallb valid_call calls then Resolved input
  else Rejected "Error: Invalid parameter".

Definition elapsed (stage : nat) : string := "0".

Definition request (secret : option string) (method path : string) : Event :=
  {| headers :=
       match secret with
       | Some s => {[ "x-origin-secret-header" := s ]}
       | None => ∅
       end;
     requestContext := Some {| http := Some {| method := method; path := path |} |} |}.

Definition handler : Event -> M Response :=
  handler env S3_getObject S3_putObject Sharp_new Sharp_chain elapsed.

End Mock.

(** ** More notions for the traces *)

Definition is_put (e : Effect) : bool :=
  match e with S3PutObject _ => true | _ => false end.

Definition is_chain (e : Effect) : bool :=
  match e with SharpChain _ _ => true | _ => false end.

Definition is_log (e : Effect) : bool :=
  match e with ConsoleLog _ => true | _ => false end.

(** The environment with another value of [logTiming]. *)
Definition set_logTiming (log : option string) (env : Env) : Env :=
  {| originalImageBucketName := originalImageBucketName env;
     transformedImageBucketName := transformedImageBucketName env;
     transformedImageCacheTTL := transformedImageCacheTTL env;
     secretKey := secretKey env;
     logTiming := log |}.

(** The five messages of [sendError] in the handler, with their codes. *)
Definition error_responses : list Response :=
  [error_response 403 "Request unauthorized.";
   error_response 400 "Only GET method is supported.";
   error_response 500 "Error downloading original image.";
   error_response 500 "error transforming image";
   error_response 500 "Could not upload transformed image to S3."].

(** The content type that goes with a recognized format. *)
Definition content_type_of (format : string) : string :=
  if String.eqb format "svg" then "image/svg+xml" else "image/" +:+ format.

Definition lossy_formats : list string := ["jpeg"; "webp"; "avif"].

(** ** The construct of the service (src/lib/image_optimization_service.ts)

    The constructor of [ImageOptimizationService], lines 73 to 186: the
    buckets, the environment and the permissions of the Lambda, and the origin
    of the distribution.  The cache behaviour and the distribution itself
    (lines 187 to 243) are left out. *)

Record ImageOptimizationServiceProps := {
  storeTransformedImages : bool;
  existingS3ImageBucketName : option string;
  cloudFrontOriginShieldRegion : string;
  cloudFrontCorsEnabled : bool;
  transformedImageS3ExpirationDays : option Z;
  transformedImageCacheControl : option string;
  imageTransformLambdaMemoryMB : option Z;
  imageTransformLambdaTimeoutSecs : option Z;
  imageTransformLambdaLogTiming : option bool
}.

(** What the CDK and CloudFormation supply: the MD5 digest, in hex, of the
    address of the construct, the names of the buckets it creates and the
    URL of the Lambda. *)
Record Synthesis := {
  addr_md5 : string;
  newOriginalImageBucketName : string;
  newTransformedImageBucketName : string;
  functionUrl : string
}.

Record PolicyStatement := { actions : list string; resources : list string }.

Record TransformedImageBucket := {
  transformedBucketName : string;
  expirationDays : Z
}.

Record LambdaProps := {
  runtime : string;
  lambdaHandler : string;
  code : string;
  timeoutSeconds : Z;
  memorySize : Z;
  environment : Env;
  logRetentionDays : Z
}.

Inductive Origin : Type :=
| S3Origin (bucket : string) (originShieldRegion : string)
| HttpOrigin (domainName : option string) (originShieldRegion : string)
    (customHeaders : list (string * string))
| OriginGroup (primaryOrigin fallbackOrigin : Origin) (fallbackStatusCodes : list Z).

Record ServiceResources := {
  originalImageBucket : string;
  sampleImagesKeyPrefix : option string;
  transformedImageBucket : option TransformedImageBucket;
  lambdaProps : LambdaProps;
  iamPolicyStatements : list PolicyStatement;
  imageOrigin : Origin
}.

(** [cdkFn.select(2, cdkFn.split('/', url))], with [None] when the list is
    too short for the index. *)
Definition imageProcessingHostname (url : string) : option string :=
  Js.split "/" url !! 2%nat.

Definition ImageOptimizationService (synth : Synthesis) (props : ImageOptimizationServiceProps)
  : ServiceResources :=
  (* Create secret key to be used between CloudFront and Lambda URL. *)
  let cloudFrontToLambdaSecretKey := addr_md5 synth in
  (* Either use an existing bucket, or create one with some sample photos. *)
  let '(originalImageBucket, sampleImages) :=
    match existingS3ImageBucketName props with
    | Some name => (name, None)
    | None => (newOriginalImageBucketName synth, Some "images/rio/")
    end in
  (* Create bucket for transformed images if enabled. *)
  let transformedImageBucket :=
    if storeTransformedImages props then
      Some {| transformedBucketName := newTransformedImageBucketName synth;
              expirationDays := default 90 (transformedImageS3ExpirationDays props) |}
    else None in
  (* Env variables for the image transformation Lambda. *)
  let lambdaEnv :=
    {| originalImageBucketName := Some originalImageBucket;
       transformedImageBucketName := transformedBucketName <$> transformedImageBucket;
       transformedImageCacheTTL :=
         Some (default "max-age=31622400" (transformedImageCacheControl props));
       secretKey := Some cloudFrontToLambdaSecretKey;
       logTiming :=
         Some (if default false (imageTransformLambdaLogTiming props)
               then "true" else "false") |} in
  (* IAM policy to read from the S3 bucket containing the original images. *)
  let s3ReadOriginalImagesPolicy :=
    {| actions := ["s3:GetObject"];
       resources := ["arn:aws:s3:::" +:+ originalImageBucket +:+ "/*"] |} in
  let lambdaProps :=
    {| runtime := "nodejs16.x";
       lambdaHandler := "index.handler";
       code := "functions/image-processing";
       timeoutSeconds := default 60 (imageTransformLambdaTimeoutSecs props);
       memorySize := default 1500 (imageTransformLambdaMemoryMB props);
       environment := lambdaEnv;
       logRetentionDays := 5 |} in
  let hostname := imageProcessingHostname (functionUrl synth) in
  let lambdaOrigin :=
    HttpOrigin hostname (cloudFrontOriginShieldRegion props)
      [("x-origin-secret-header", cloudFrontToLambdaSecretKey)] in
  (* S3 with fallback to Lambda when the image needs to be transformed. *)
  match transformedImageBucket with
  | Some bucket =>
      {| originalImageBucket := originalImageBucket;
         sampleImagesKeyPrefix := sampleImages;
         transformedImageBucket := transformedImageBucket;
         lambdaProps := lambdaProps;
         iamPolicyStatements :=
           [s3ReadOriginalImagesPolicy;
            {| actions := ["s3:PutObject"];
               resources := ["arn:aws:s3:::" +:+ transformedBucketName bucket +:+ "/*"] |}];
         imageOrigin :=
           OriginGroup
             (S3Origin (transformedBucketName bucket) (cloudFrontOriginShieldRegion props))
             lambdaOrigin [403] |}
  | None =>
      {| originalImageBucket := originalImageBucket;
         sampleImagesKeyPrefix := sampleImages;
         transformedImageBucket := transformedImageBucket;
         lambdaProps := lambdaProps;
         iamPolicyStatements := [s3ReadOriginalImagesPolicy];
         imageOrigin := lambdaOrigin |}
  end.

(** [DefaultImageOptimizationStack]: the props it hands to the service. *)
Definition DefaultImageOptimizationStack (cloudFrontOriginShieldRegion : string)
  : ImageOptimizationServiceProps :=
  {| storeTransformedImages := true;
     existingS3ImageBucketName := None;
     cloudFrontOriginShieldRegion := cloudFrontOriginShieldRegion;
     cloudFrontCorsEnabled := true;
     transformedImageS3ExpirationDays := None;
     transformedImageCacheControl := None;
     imageTransformLambdaMemoryMB := None;
     imageTransformLambdaTimeoutSecs := None;
     imageTransformLambdaLogTiming := None |}.

(** The request that reaches the Lambda through an origin of the
    distribution: the custom headers of the origin are added to the headers
    of the viewer and replace those of the same name. *)
Fixpoint lambda_origin (origin : Origin) : option (list (string * string)) :=
  match origin with
  | S3Origin _ _ => None
  | HttpOrigin _ _ customHeaders => Some customHeaders
  | OriginGroup _ fallbackOrigin _ => lambda_origin fallbackOrigin
  end.

Fixpoint lambda_domain (origin : Origin) : option string :=
  match origin with
  | S3Origin _ _ => None
  | HttpOrigin domainName _ _ => domainName
  | OriginGroup _ fallbackOrigin _ => lambda_domain fallbackOrigin
  end.

Definition forwarded (customHeaders : list (string * string))
    (viewerHeaders : gmap string string) (request : Http) : Event :=
  {| headers := list_to_map customHeaders ∪ viewerHeaders;
     requestContext := Some {| http := Some request |} |}.

(** The pattern of all the objects of a bucket, as the statements have it. *)
Definition objects_of (bucket : string) : string := "arn:aws:s3:::" +:+ bucket +:+ "/*".

Definition allows (action resource : string) (statements : list PolicyStatement) : Prop :=
  exists statement, statement ∈ statements /\ action ∈ actions statement /\
                    resource ∈ resources statement.

(** ** The entry points of the application (src/bin and its other version) *)

(** [new Map(entries)]: a later entry of a key replaces an earlier one. *)
Definition Map_of (entries : list (string * string)) : gmap string string :=
  fold_left (fun m entry => <[fst entry := snd entry]> m) entries ∅.

Definition ORIGIN_SHIELD_MAPPING : gmap string string :=
  Map_of
    [("af-south-1", "eu-west-2");
     ("ap-east-1", "ap-northeast-2");
     ("ap-northeast-1", "ap-northeast-1");
     ("ap-northeast-2", "ap-northeast-2");
     ("ap-northeast-3", "ap-northeast-1");
     ("ap-south-1", "ap-south-1");
     ("ap-southeast-1", "ap-southeast-1");
     ("ap-southeast-2", "ap-southeast-2");
     ("ca-central-1", "us-east-1");
     ("eu-central-1", "eu-central-1");
     ("eu-north-1", "eu-central-1");
     ("eu-south-1", "eu-central-1");
     ("eu-west-1", "eu-west-1");
     ("eu-west-2", "eu-west-2");
     ("eu-west-3", "eu-west-2");
     ("me-south-1", "ap-south-1");
     ("sa-east-1", "sa-east-1");
     ("us-east-1", "us-east-1");
     ("us-east-2", "us-east-2");
     ("us-west-1", "us-west-1");
     ("us-west-2", "us-west-2")].

(** The script that takes the region from [process.env.AWS_REGION]: the
    exception it throws, or the stacks it creates with their props. *)
Definition main_of_region (AWS_REGION : option string)
  : Error + list (string * ImageOptimizationServiceProps) :=
  let CLOUDFRONT_ORIGIN_SHIELD_REGION := ORIGIN_SHIELD_MAPPING !! default "" AWS_REGION in
  match CLOUDFRONT_ORIGIN_SHIELD_REGION with
  | None => inl "CLOUDFRONT_ORIGIN_SHIELD_REGION is undefined."
  | Some region =>
      inr [("StagingStack", DefaultImageOptimizationStack region);
           ("ProductionStack", DefaultImageOptimizationStack region)]
  end.

(** The script that takes the region from the context of the application. *)
Definition main_of_context (context : option string)
  : Error + list (string * ImageOptimizationServiceProps) :=
  match context with
  | None =>
      inl "CLOUDFRONT_ORIGIN_SHIELD_REGION is undefined. (See ORIGIN_SHIELD_MAPPING for suggestions.)"
  | Some region =>
      inr [("Staging", DefaultImageOptimizationStack region);
           ("Production", DefaultImageOptimizationStack region)]
  end.

(** ** Runs on the stand-ins *)

Example split_path :
  Js.split "/" "/images/rio/1.jpg/original" = [""; "images"; "rio"; "1.jpg"; "original"].
Proof. reflexivity. Qed.

Example parseInt_examples :
  Js.parseInt "200" = Js.Int 200 /\ Js.parseInt "abc" = Js.NaN /\
  Js.parseInt " -12px" = Js.Int (-12) /\ Js.parseInt "0x1f" = Js.Int 31 /\
  Js.parseInt "0x" = Js.NaN /\ Js.parseInt "" = Js.NaN.
Proof. repeat split; reflexivity. Qed.

Example base64_examples :
  Js.base64 [] = "" /\ Js.base64 ["M"%byte] = "TQ==" /\
  Js.base64 ["M"%byte; "a"%byte] = "TWE=" /\
  Js.base64 ["M"%byte; "a"%byte; "n"%byte] = "TWFu".
Proof. repeat split; reflexivity. Qed.

(** Scenario A: the token "original" with a valid secret. *)
Example scenario_original :
  run (Mock.handler (Mock.request (Some "0123abcd") "GET" "/images/rio/1.jpg/original")) =
    (Returned (image_response Mock.env (Body Mock.image) (Some "image/jpeg")),
     [S3GetObject {| get_Bucket := Some "originals"; get_Key := "images/rio/1.jpg" |};
      SharpNew (Body Mock.image);
      SharpChain (Body Mock.image) [rotate; resize {| width := None; height := None |}];
      S3PutObject (store_request Mock.env "/images/rio/1.jpg/original" "original"
                     (Body Mock.image) (Some "image/jpeg"))]).
Proof. vm_compute. reflexivity. Qed.

(** Scenario B: a webp of width 200. *)
Example scenario_webp :
  let result :=
    run (Mock.handler
           (Mock.request (Some "0123abcd") "GET" "/images/rio/1.jpg/format=webp,width=200")) in
  fst result = Returned (image_response Mock.env (Body Mock.image) (Some "image/webp")) /\
  snd result !! 2%nat =
    Some (SharpChain (Body Mock.image)
            [rotate; resize {| width := Some (Js.Int 200); height := None |};
             toFormat "webp" None]).
Proof. split; vm_compute; reflexivity. Qed.

(** Scenario D: a quality given with png is not passed to the encoder. *)
Example scenario_png_quality :
  let result :=
    run (Mock.handler
           (Mock.request (Some "0123abcd") "GET" "/images/rio/1.jpg/format=png,quality=80")) in
  fst result = Returned (image_response Mock.env (Body Mock.image) (Some "image/png")) /\
  snd result !! 2%nat =
    Some (SharpChain (Body Mock.image)
            [rotate; resize {| width := None; height := None |}; toFormat "png" None]).
Proof. split; vm_compute; reflexivity. Qed.

(** Scenario E: the original is not in the bucket. *)
Example scenario_missing_original :
  run (Mock.handler (Mock.request (Some "0123abcd") "GET" "/images/rio/2.jpg/original")) =
    (Returned (error_response 500 "Error downloading original image."),
     S3GetObject {| get_Bucket := Some "originals"; get_Key := "images/rio/2.jpg" |}
       :: error_log "Error downloading original image."
            (LogError "NoSuchKey: The specified key does not exist.")).
Proof. vm_compute. reflexivity. Qed.

(** Without the bucket for transformed images nothing is written, and the
    timing line is logged when [logTiming] is "true". *)
Example run_without_store :
  run (handler Mock.env_no_store Mock.S3_getObject Mock.S3_putObject Mock.Sharp_new
         Mock.Sharp_chain Mock.elapsed
         (Mock.request (Some "0123abcd") "GET" "/images/rio/1.jpg/width=64")) =
    (Returned (image_response Mock.env_no_store (Body Mock.image) (Some "image/jpeg")),
     [S3GetObject {| get_Bucket := Some "originals"; get_Key := "images/rio/1.jpg" |};
      SharpNew (Body Mock.image);
      SharpChain (Body Mock.image) [rotate; resize {| width := Some (Js.Int 64); height := None |}];
      ConsoleLog [LogString "perf 0 0 0 "]]).
Proof. vm_compute. reflexivity. Qed.

(** ** Facts about the built-ins *)

Lemma split_nonempty c s : Js.split c s <> [].
Proof.
  destruct s as [|x s]; cbn; [discriminate|].
  destruct (Ascii.eqb x c); [discriminate|].
  destruct (Js.split c s); discriminate.
Qed.

Lemma append_empty s : "" +:+ s = s.
Proof. reflexivity. Qed.

Lemma append_String x a b : String x a +:+ b = String x (a +:+ b).
Proof. reflexivity. Qed.

Lemma split_app c a b :
  Js.split c (a +:+ String c b) = Js.split c a ++ Js.split c b.
Proof.
  induction a as [|x a IH].
  - rewrite append_empty. cbn. now rewrite Ascii.eqb_refl.
  - rewrite append_String. cbn [Js.split].
    destruct (Ascii.eqb x c); [now rewrite IH|].
    rewrite IH. destruct (Js.split c a) as [|w ws] eqn:E; [|reflexivity].
    now apply split_nonempty in E.
Qed.

Lemma split_without c s : includes c s = false -> Js.split c s = [s].
Proof.
  induction s as [|x s IH]; cbn; [reflexivity|].
  intros H. apply orb_false_elim in H as [Hx Hs].
  now rewrite Hx, (IH Hs).
Qed.

Lemma join_cons sep w v ws :
  Js.join sep (w :: v :: ws) = w +:+ sep +:+ Js.join sep (v :: ws).
Proof. reflexivity. Qed.

Lemma join_split c s : Js.join (String c "") (Js.split c s) = s.
Proof.
  induction s as [|x s IH]; [reflexivity|].
  cbn [Js.split]. destruct (Js.split c s) as [|w ws] eqn:E.
  { now apply split_nonempty in E. }
  destruct (Ascii.eqb x c) eqn:Hx.
  - apply Ascii.eqb_eq in Hx as ->. now rewrite join_cons, IH.
  - rewrite <- IH. destruct ws as [|v ws]; [reflexivity|].
    now rewrite !join_cons, append_String.
Qed.

Lemma truthy_nonempty s : s <> "" -> Js.truthy (Some s) = true.
Proof. intros H. cbn. now apply String.eqb_neq in H as ->. Qed.

(** ** Facts about the path *)

Lemma operationsPrefix_defined p : exists token, operationsPrefix p = Some token.
Proof.
  unfold operationsPrefix, parsePath, Js.pop. cbn.
  destruct (Js.split "/" p) as [|w ws] eqn:E using rev_ind.
  - now apply split_nonempty in E.
  - exists w. apply last_snoc.
Qed.

Lemma parsePath_eq p token :
  operationsPrefix p = Some token -> parsePath p = (originalImagePath p, Some token).
Proof.
  unfold operationsPrefix, originalImagePath.
  destruct (parsePath p) as [o t]; cbn. now intros ->.
Qed.

(** The key is what lies between the first and the last slash. *)
Lemma parsePath_shape first rest token :
  includes "/" first = false -> includes "/" token = false ->
  parsePath (first +:+ "/" +:+ rest +:+ "/" +:+ token) = (rest, Some token).
Proof.
  intros Hf Ht. unfold parsePath, Js.pop, Js.shift.
  change (first +:+ "/" +:+ rest +:+ "/" +:+ token)
    with (first +:+ String "/" (rest +:+ String "/" token)).
  rewrite !split_app, (split_without _ _ Hf), (split_without _ _ Ht).
  cbn [app]. rewrite app_comm_cons, removelast_last, last_snoc. cbn [tail].
  now rewrite (join_split "/").
Qed.

(** ** The gates and the stages of an invocation *)

Lemma auth_gate_open env event :
  Authenticated env event ->
  let secret := headers event !! "x-origin-secret-header" in
  negb (Js.truthy secret) || negb (bool_decide (secret = secretKey env)) = false.
Proof.
  intros (s & -> & Hs & ->). cbn zeta.
  now rewrite (truthy_nonempty _ Hs), bool_decide_eq_true_2.
Qed.

Lemma auth_gate_closed env event :
  let secret := headers event !! "x-origin-secret-header" in
  Js.truthy secret = false \/ secret <> secretKey env ->
  negb (Js.truthy secret) || negb (bool_decide (secret = secretKey env)) = true.
Proof.
  cbn zeta. intros [-> | H]; [reflexivity|].
  rewrite (bool_decide_eq_false_2 _ H). apply orb_true_r.
Qed.

Ltac step_handler :=
  unfold run, handler, sendError, bind, emit, ret, return_, throw; cbn zeta.

Section Invocation.

Variable env : Env.
Variable S3_getObject : GetObjectRequest -> result GetObjectOutput.
Variable S3_putObject : PutObjectRequest -> result unit.
Variable Sharp_new : Buffer -> option Error.
Variable Sharp_chain : Buffer -> list SharpCall -> result Buffer.
Variable elapsed : nat -> string.

Let invoke (event : Event) : Outcome * list Effect :=
  run (handler env S3_getObject S3_putObject Sharp_new Sharp_chain elapsed event).

Lemma invoke_unauthorized event :
  (let secret := headers event !! "x-origin-secret-header" in
   Js.truthy secret = false \/ secret <> secretKey env) ->
  invoke event =
    (Returned (error_response 403 "Request unauthorized."),
     error_log "Request unauthorized." (LogEvent event)).
Proof.
  intros H. unfold invoke. step_handler.
  now rewrite (auth_gate_closed _ _ H).
Qed.

Lemma invoke_not_get event :
  Authenticated env event ->
  method <$> (requestContext event ≫= http) <> Some "GET" ->
  invoke event =
    (Returned (error_response 400 "Only GET method is supported."),
     error_log "Only GET method is supported." (LogEvent event)).
Proof.
  intros Ha Hm. unfold invoke. step_handler.
  rewrite (auth_gate_open _ _ Ha).
  destruct (requestContext event ≫= http) as [request|]; [|reflexivity].
  destruct (String.eqb (method request) "GET") eqn:E; [|reflexivity].
  apply String.eqb_eq in E. cbn in Hm. congruence.
Qed.

(** From here on: an authenticated GET request. *)
Variable event : Event.
Variable request : Http.
Variable token : string.
Hypothesis authenticated : Authenticated env event.
Hypothesis get_request : GetRequest event request.
Hypothesis token_of_path : operationsPrefix (path request) = Some token.

Let fetch := fetch_request env (path request).

Local Ltac enter :=
  unfold invoke; step_handler;
  destruct get_request as [-> ->];
  rewrite (auth_gate_open _ _ authenticated), (parsePath_eq _ _ token_of_path);
  unfold fetch, fetch_request in *;
  cbn -[originalImagePath parseOperations transformation Js.base64 String.append].

Lemma invoke_fetch_rejected error :
  S3_getObject fetch = Rejected error ->
  invoke event =
    (Returned (error_response 500 "Error downloading original image."),
     S3GetObject fetch :: error_log "Error downloading original image." (LogError error)).
Proof. intros Hf. enter. now rewrite Hf. Qed.

(** From here on: the original is found. *)
Variable image : GetObjectOutput.
Hypothesis fetched : S3_getObject fetch = Resolved image.

Lemma invoke_constructor_throws error :
  Sharp_new (Body image) = Some error ->
  invoke event = (Threw error, [S3GetObject fetch; SharpNew (Body image)]).
Proof. intros Hn. enter. now rewrite fetched, Hn. Qed.

(** From here on: Sharp accepts the original as its input. *)
Hypothesis constructed : Sharp_new (Body image) = None.

Let plan := transformation (parseOperations token) (ContentType image).
Let store buffer := store_request env (path request) token buffer (snd plan).
Let before_write : list Effect :=
  [S3GetObject fetch; SharpNew (Body image); SharpChain (Body image) (fst plan)].

Local Ltac transform :=
  enter; rewrite fetched, constructed;
  unfold before_write, store, store_request, timing_log, fetch, fetch_request in *;
  fold plan; destruct plan as [calls contentType];
  cbn -[originalImagePath Js.base64 String.append] in *.

Lemma invoke_transform_rejected error :
  Sharp_chain (Body image) (fst plan) = Rejected error ->
  invoke event =
    (Returned (error_response 500 "error transforming image"),
     before_write ++ error_log "error transforming image" (LogError error)).
Proof. intros Hc. transform. now rewrite Hc. Qed.

Lemma invoke_write_rejected buffer error :
  Sharp_chain (Body image) (fst plan) = Resolved buffer ->
  Js.truthy (transformedImageBucketName env) = true ->
  S3_putObject (store buffer) = Rejected error ->
  invoke event =
    (Returned (error_response 500 "Could not upload transformed image to S3."),
     before_write ++ S3PutObject (store buffer)
       :: error_log "Could not upload transformed image to S3." (LogError error)).
Proof. intros Hc Hb Hp. transform. now rewrite Hc, Hb, Hp. Qed.

Lemma invoke_stored buffer :
  Sharp_chain (Body image) (fst plan) = Resolved buffer ->
  Js.truthy (transformedImageBucketName env) = true ->
  S3_putObject (store buffer) = Resolved tt ->
  invoke event =
    (Returned (image_response env buffer (snd plan)),
     before_write ++ S3PutObject (store buffer) :: timing_log env elapsed).
Proof.
  intros Hc Hb Hp. transform. rewrite Hc, Hb, Hp.
  now destruct (bool_decide (logTiming env = Some "true")).
Qed.

Lemma invoke_not_stored buffer :
  Sharp_chain (Body image) (fst plan) = Resolved buffer ->
  Js.truthy (transformedImageBucketName env) = false ->
  invoke event =
    (Returned (image_response env buffer (snd plan)),
     before_write ++ timing_log env elapsed).
Proof.
  intros Hc Hb. transform. rewrite Hc, Hb.
  now destruct (bool_decide (logTiming env = Some "true")).
Qed.

End Invocation.

(** Every invocation ends in one of the ways of [Ends]. *)
Lemma invoke_ends env S3_getObject S3_putObject Sharp_new Sharp_chain elapsed event :
  let result :=
    run (handler env S3_getObject S3_putObject Sharp_new Sharp_chain elapsed event) in
  Ends env S3_getObject S3_putObject Sharp_new Sharp_chain elapsed event
       (fst result) (snd result).
Proof.
  cbn zeta.
  (* the authentication gate *)
  destruct (Js.truthy (headers event !! "x-origin-secret-header")) eqn:Ht.
  2:{ rewrite invoke_unauthorized by (cbn zeta; left; exact Ht).
      apply ends_unauthorized. cbn zeta. left. exact Ht. }
  destruct (decide (headers event !! "x-origin-secret-header" = secretKey env)) as [Hk|Hk].
  2:{ rewrite invoke_unauthorized by (cbn zeta; right; exact Hk).
      apply ends_unauthorized. cbn zeta. right. exact Hk. }
  assert (Ha : Authenticated env event).
  { destruct (headers event !! "x-origin-secret-header") as [s|] eqn:Hs; [|discriminate].
    exists s. split; [exact Hs|]. split; [|now symmetry].
    intros ->. discriminate. }
  (* the method gate *)
  destruct (decide (method <$> (requestContext event ≫= http) = Some "GET")) as [Hm|Hm].
  2:{ rewrite invoke_not_get by assumption. now apply ends_not_get. }
  destruct (requestContext event ≫= http) as [request|] eqn:Hr; [|discriminate].
  assert (Hg : GetRequest event request) by (split; [assumption | cbn in Hm; congruence]).
  destruct (operationsPrefix_defined (path request)) as [token Hp].
  pose proof (reached env event request token Ha Hg Hp) as Hreached.
  (* the stages *)
  destruct (S3_getObject (fetch_request env (path request))) as [image|error] eqn:Hf.
  2:{ erewrite invoke_fetch_rejected by eassumption. econstructor; eassumption. }
  destruct (Sharp_new (Body image)) as [error|] eqn:Hn.
  { erewrite invoke_constructor_throws by eassumption. econstructor; eassumption. }
  destruct (Sharp_chain (Body image)
              (fst (transformation (parseOperations token) (ContentType image))))
    as [buffer|error] eqn:Hc.
  2:{ erewrite invoke_transform_rejected by eassumption. econstructor; eassumption. }
  destruct (Js.truthy (transformedImageBucketName env)) eqn:Hb.
  2:{ erewrite invoke_not_stored by eassumption. econstructor; eassumption. }
  destruct (S3_putObject
              (store_request env (path request) token buffer
                 (snd (transformation (parseOperations token) (ContentType image)))))
    as [[]|error] eqn:Hw.
  - erewrite invoke_stored by eassumption. econstructor; eassumption.
  - erewrite invoke_write_rejected by eassumption. econstructor; eassumption.
Qed.

(** ** Facts about the operations *)

Lemma get_prop_delete o k : get_prop (delete k o) k = None.
Proof. unfold get_prop. now rewrite lookup_delete_eq. Qed.

Lemma get_prop_delete_ne o k k' : k <> k' -> get_prop (delete k o) k' = get_prop o k'.
Proof. intros H. unfold get_prop. now rewrite lookup_delete_ne. Qed.

Lemma get_prop_agree (o1 o2 : gmap string (option string)) k :
  o1 !! k = o2 !! k -> get_prop o1 k = get_prop o2 k.
Proof. unfold get_prop. now intros ->. Qed.

(** The transformation reads the four recognized keys and nothing else. *)
Lemma transformation_ext o1 o2 contentType :
  (forall k, k ∈ recognized_keys -> get_prop o1 k = get_prop o2 k) ->
  transformation o1 contentType = transformation o2 contentType.
Proof.
  intros H. unfold transformation, resizingOptions.
  rewrite (H "format"), (H "width"), (H "height"), (H "quality");
    [reflexivity | unfold recognized_keys; set_solver ..].
Qed.

(** A key whose value is [undefined] or empty is as good as absent. *)
Lemma transformation_falsy o k contentType :
  k ∈ recognized_keys -> Js.truthy (get_prop o k) = false ->
  transformation o contentType = transformation (delete k o) contentType.
Proof.
  unfold recognized_keys. rewrite !elem_of_cons, elem_of_nil.
  intros [-> | [-> | [-> | [-> | []]]]] H;
    unfold transformation, resizingOptions;
    rewrite get_prop_delete, !get_prop_delete_ne, H by discriminate; reflexivity.
Qed.

Lemma last_occurrence_snoc k segments segment :
  last_occurrence k (segments ++ [segment]) =
    if decide (segment_key segment = k) then Some (segment_value segment)
    else last_occurrence k segments.
Proof.
  unfold last_occurrence. rewrite reverse_snoc. cbn [list_find].
  destruct (decide (segment_key segment = k)); [reflexivity|].
  cbn. now destruct (list_find _ (reverse segments)) as [[i x]|].
Qed.

Lemma assign_segments segments (o : gmap string (option string)) k :
  fold_left assign_operation segments o !! k =
  if decide (k = "__proto__") then o !! k
  else match last_occurrence k segments with
       | Some v => Some v
       | None => o !! k
       end.
Proof.
  induction segments as [|segment segments IH] using rev_ind.
  - cbn. now destruct (decide _).
  - rewrite fold_left_app, last_occurrence_snoc. cbn [fold_left].
    unfold assign_operation at 1. cbn zeta.
    fold (segment_key segment) (segment_value segment).
    unfold set_prop. destruct (decide (segment_key segment = "__proto__")) as [Hp|Hp].
    + rewrite IH. destruct (decide (k = "__proto__")) as [->|Hk]; [reflexivity|].
      destruct (decide (segment_key segment = k)); [congruence | reflexivity].
    + destruct (decide (segment_key segment = k)) as [<-|Hk].
      * rewrite lookup_insert_eq. now destruct (decide _).
      * now rewrite lookup_insert_ne, IH.
Qed.

Lemma parseOperations_lookup token k :
  parseOperations token !! k =
    if decide (k = "__proto__") then None else last_occurrence k (Js.split "," token).
Proof.
  unfold parseOperations. rewrite assign_segments, lookup_empty.
  destruct (decide _); [reflexivity|]. now destruct (last_occurrence _ _).
Qed.

(** ** Facts about the stand-ins *)

Lemma mock_authenticated store log method path :
  Authenticated (Mock.deployment store (Some "0123abcd") log)
                (Mock.request (Some "0123abcd") method path).
Proof. exists "0123abcd". repeat split. discriminate. Qed.

Lemma mock_get_request secret path :
  GetRequest (Mock.request secret "GET" path) {| method := "GET"; path := path |}.
Proof. split; reflexivity. Qed.

(** ** The authentication gate *)

(** C4: a request whose [x-origin-secret-header] header is absent or differs
    from the configured shared secret is answered with status 403, and the
    invocation never reaches the storage gateway: the fetch of the original
    is called zero times (and so is every other storage or engine call). *)
Theorem auth_short_circuit env S3_getObject S3_putObject Sharp_new Sharp_chain elapsed event :
  headers event !! "x-origin-secret-header" = None \/
  headers event !! "x-origin-secret-header" <> secretKey env ->
  let result :=
    run (handler env S3_getObject S3_putObject Sharp_new Sharp_chain elapsed event) in
  fst result = Returned (error_response 403 "Request unauthorized.") /\
  calls is_fetch (snd result) = 0%nat /\
  calls is_storage (snd result) = 0%nat /\
  calls is_engine (snd result) = 0%nat.
Proof.
  intros H. cbn zeta. rewrite invoke_unauthorized.
  - repeat split.
  - cbn zeta. destruct H as [-> | H]; [now left | now right].
Qed.

Lemma auth_short_circuit_witness :
  let absent := Mock.request None "GET" "/images/rio/1.jpg/format=webp,width=200" in
  let wrong := Mock.request (Some "0123abcdef") "GET" "/images/rio/1.jpg/original" in
  (headers absent !! "x-origin-secret-header" = None /\
   fst (run (Mock.handler absent)) = Returned (error_response 403 "Request unauthorized.") /\
   calls is_fetch (snd (run (Mock.handler absent))) = 0%nat) /\
  (headers wrong !! "x-origin-secret-header" <> secretKey Mock.env /\
   fst (run (Mock.handler wrong)) = Returned (error_response 403 "Request unauthorized.") /\
   calls is_fetch (snd (run (Mock.handler wrong))) = 0%nat).
Proof.
  cbn zeta. split.
  - assert (H : headers (Mock.request None "GET" "/images/rio/1.jpg/format=webp,width=200")
                  !! "x-origin-secret-header" = None) by reflexivity.
    split; [exact H|].
    destruct (auth_short_circuit Mock.env Mock.S3_getObject Mock.S3_putObject Mock.Sharp_new
                Mock.Sharp_chain Mock.elapsed _ (or_introl H)) as (Hr & Hf & _).
    split; [exact Hr | exact Hf].
  - assert (H : headers (Mock.request (Some "0123abcdef") "GET" "/images/rio/1.jpg/original")
                  !! "x-origin-secret-header" <> secretKey Mock.env)
      by (vm_compute; discriminate).
    split; [exact H|].
    destruct (auth_short_circuit Mock.env Mock.S3_getObject Mock.S3_putObject Mock.Sharp_new
                Mock.Sharp_chain Mock.elapsed _ (or_intror H)) as (Hr & Hf & _).
    split; [exact Hr | exact Hf].
Defined.

(** C10: a request whose [x-origin-secret-header] header is present but is the
    empty string is answered with status 403 whatever the configured secret
    is, also when that secret is itself empty or unset: the truthiness test
    of the header rejects it before the comparison. *)
Theorem empty_secret_header_rejected env S3_getObject S3_putObject Sharp_new Sharp_chain
    elapsed event :
  headers event !! "x-origin-secret-header" = Some "" ->
  run (handler env S3_getObject S3_putObject Sharp_new Sharp_chain elapsed event) =
    (Returned (error_response 403 "Request unauthorized."),
     error_log "Request unauthorized." (LogEvent event)).
Proof.
  intros H. apply invoke_unauthorized. cbn zeta. left. now rewrite H.
Qed.

Lemma empty_secret_header_rejected_witness :
  let event := Mock.request (Some "") "GET" "/images/rio/1.jpg/original" in
  headers event !! "x-origin-secret-header" = Some "" /\
  fst (run (handler (Mock.deployment None (Some "") None) Mock.S3_getObject Mock.S3_putObject
              Mock.Sharp_new Mock.Sharp_chain Mock.elapsed event))
    = Returned (error_response 403 "Request unauthorized.") /\
  fst (run (handler (Mock.deployment None None None) Mock.S3_getObject Mock.S3_putObject
              Mock.Sharp_new Mock.Sharp_chain Mock.elapsed event))
    = Returned (error_response 403 "Request unauthorized.").
Proof.
  cbn zeta.
  assert (H : headers (Mock.request (Some "") "GET" "/images/rio/1.jpg/original")
                !! "x-origin-secret-header" = Some "") by reflexivity.
  split; [exact H|]. split.
  - now rewrite (empty_secret_header_rejected (Mock.deployment None (Some "") None)
                   Mock.S3_getObject Mock.S3_putObject Mock.Sharp_new Mock.Sharp_chain
                   Mock.elapsed _ H).
  - now rewrite (empty_secret_header_rejected (Mock.deployment None None None)
                   Mock.S3_getObject Mock.S3_putObject Mock.Sharp_new Mock.Sharp_chain
                   Mock.elapsed _ H).
Defined.

(** ** The method gate *)

(** C8: an authenticated request whose HTTP method is not GET is answered
    with status 400; the invocation only writes its two log lines, so it
    never comes to the path, to the storage or to the transform. *)
Theorem method_short_circuit env S3_getObject S3_putObject Sharp_new Sharp_chain elapsed event :
  Authenticated env event ->
  method <$> (requestContext event ≫= http) <> Some "GET" ->
  let result :=
    run (handler env S3_getObject S3_putObject Sharp_new Sharp_chain elapsed event) in
  fst result = Returned (error_response 400 "Only GET method is supported.") /\
  snd result = error_log "Only GET method is supported." (LogEvent event) /\
  calls is_storage (snd result) = 0%nat /\
  calls is_engine (snd result) = 0%nat.
Proof.
  intros Ha Hm. cbn zeta. rewrite invoke_not_get by assumption. repeat split.
Qed.

Lemma method_short_circuit_witness :
  let event := Mock.request (Some "0123abcd") "POST" "/images/rio/1.jpg/format=webp" in
  Authenticated Mock.env event /\
  method <$> (requestContext event ≫= http) <> Some "GET" /\
  fst (run (Mock.handler event)) = Returned (error_response 400 "Only GET method is supported.") /\
  calls is_storage (snd (run (Mock.handler event))) = 0%nat.
Proof.
  cbn zeta.
  pose proof (mock_authenticated (Some "transformed") (Some "false") "POST"
                "/images/rio/1.jpg/format=webp") as Ha.
  assert (Hm : method <$> (requestContext
                 (Mock.request (Some "0123abcd") "POST" "/images/rio/1.jpg/format=webp")
                 ≫= http) <> Some "GET") by (cbn; discriminate).
  split; [exact Ha|]. split; [exact Hm|].
  destruct (method_short_circuit Mock.env Mock.S3_getObject Mock.S3_putObject Mock.Sharp_new
              Mock.Sharp_chain Mock.elapsed _ Ha Hm) as (Hr & _ & Hs & _).
  split; [exact Hr | exact Hs].
Defined.

(** ** The write-back *)

(** C1, as stated, fails: with the bucket for transformed images configured
    and a transform that succeeds, a rejected [putObject] turns the result
    into status 500; the transformed bytes are not returned. *)
Lemma write_failure_changes_result :
  let event := Mock.request (Some "0123abcd") "GET" "/images/rio/1.jpg/format=webp,width=200" in
  let result :=
    run (handler Mock.env Mock.S3_getObject Mock.S3_putObject_denied Mock.Sharp_new
           Mock.Sharp_chain Mock.elapsed event) in
  Js.truthy (transformedImageBucketName Mock.env) = true /\
  Mock.Sharp_chain (Body Mock.image)
    (fst (transformation (parseOperations "format=webp,width=200") (ContentType Mock.image)))
    = Resolved (Body Mock.image) /\
  fst result = Returned (error_response 500 "Could not upload transformed image to S3.") /\
  fst result <> Returned (image_response Mock.env (Body Mock.image) (Some "image/webp")) /\
  fst (run (Mock.handler event))
    = Returned (image_response Mock.env (Body Mock.image) (Some "image/webp")).
Proof. cbn zeta. repeat split; try (vm_compute; reflexivity). vm_compute. discriminate. Qed.

(** C1, amended: when the transform succeeds and the bucket for transformed
    images is configured, a rejected [putObject] is caught and answered with
    status 500 and the fixed message "Could not upload transformed image to
    S3."; the error itself goes to the log only, and the transformed bytes are
    not in the response. *)
Theorem write_failure_is_500 env S3_getObject S3_putObject Sharp_new Sharp_chain elapsed
    event request token image buffer error :
  Authenticated env event ->
  GetRequest event request ->
  operationsPrefix (path request) = Some token ->
  S3_getObject (fetch_request env (path request)) = Resolved image ->
  Sharp_new (Body image) = None ->
  let plan := transformation (parseOperations token) (ContentType image) in
  let store := store_request env (path request) token buffer (snd plan) in
  Sharp_chain (Body image) (fst plan) = Resolved buffer ->
  Js.truthy (transformedImageBucketName env) = true ->
  S3_putObject store = Rejected error ->
  run (handler env S3_getObject S3_putObject Sharp_new Sharp_chain elapsed event) =
    (Returned {| statusCode := 500; body := "Could not upload transformed image to S3.";
                 isBase64Encoded := false; response_headers := None |},
     [S3GetObject (fetch_request env (path request)); SharpNew (Body image);
      SharpChain (Body image) (fst plan); S3PutObject store;
      ConsoleLog [LogString "APPLICATION ERROR";
                  LogString "Could not upload transformed image to S3."];
      ConsoleLog [LogError error]]).
Proof.
  intros Ha Hg Ht Hf Hn plan store Hc Hb Hw.
  now rewrite (invoke_write_rejected _ _ _ _ _ _ _ _ _ Ha Hg Ht _ Hf Hn _ _ Hc Hb Hw).
Qed.

Lemma write_failure_is_500_witness :
  let event := Mock.request (Some "0123abcd") "GET" "/images/rio/1.jpg/format=webp,width=200" in
  fst (run (handler Mock.env Mock.S3_getObject Mock.S3_putObject_denied Mock.Sharp_new
              Mock.Sharp_chain Mock.elapsed event))
    = Returned (error_response 500 "Could not upload transformed image to S3.").
Proof.
  cbn zeta.
  rewrite (write_failure_is_500 Mock.env Mock.S3_getObject Mock.S3_putObject_denied
             Mock.Sharp_new Mock.Sharp_chain Mock.elapsed _
             {| method := "GET"; path := "/images/rio/1.jpg/format=webp,width=200" |}
             "format=webp,width=200" Mock.image (Body Mock.image)
             "AccessDenied: Access Denied"
             (mock_authenticated _ _ _ _) (mock_get_request _ _)
             eq_refl eq_refl eq_refl eq_refl eq_refl eq_refl).
  reflexivity.
Defined.

(** ** The path gate and the fetch *)

Lemma auth_gate_exclusive env event :
  Authenticated env event ->
  ~ (let secret := headers event !! "x-origin-secret-header" in
     Js.truthy secret = false \/ secret <> secretKey env).
Proof.
  intros (s & Hs & Hne & Hk). cbn zeta. rewrite Hs, Hk, (truthy_nonempty _ Hne).
  intros [H | H]; [discriminate | now apply H].
Qed.

Lemma get_request_method event request :
  GetRequest event request -> method <$> (requestContext event ≫= http) = Some "GET".
Proof. intros [-> Hm]. cbn. now rewrite Hm. Qed.

Lemma reached_request env event request request' token :
  GetRequest event request -> Reached env event request' token ->
  request' = request /\ operationsPrefix (path request) = Some token.
Proof.
  intros [Hr _] [_ [Hr' _] Ht]. assert (request' = request) as -> by congruence. now split.
Qed.

(** An authenticated GET request begins with the fetch of the original. *)
Lemma ends_begin_with_fetch env S3_getObject S3_putObject Sharp_new Sharp_chain elapsed
    event request outcome trace :
  Authenticated env event -> GetRequest event request ->
  Ends env S3_getObject S3_putObject Sharp_new Sharp_chain elapsed event outcome trace ->
  exists rest, trace = S3GetObject (fetch_request env (path request)) :: rest.
Proof.
  intros Ha Hg He.
  destruct He as [Hc | _ Hm | r t e Hr | r t i e Hr | r t i e Hr | r t i b e Hr | r t i b Hr
                 | r t i b Hr];
    try (destruct (reached_request _ _ _ _ _ Hg Hr) as [-> _]; eexists; reflexivity).
  - now apply auth_gate_exclusive in Hc.
  - now rewrite (get_request_method _ _ Hg) in Hm.
Qed.

(** C7, as stated, fails on the documented path shape: the segment that is
    discarded is the empty one before the leading slash, so the routing
    prefix stays in the key that is fetched. *)
Lemma routing_prefix_is_kept :
  let path := documented_path "images" ["rio"; "1.jpg"] "original" in
  let result := run (Mock.handler (Mock.request (Some "0123abcd") "GET" path)) in
  path = "/images/rio/1.jpg/original" /\
  snd result !! 0%nat
    = Some (S3GetObject {| get_Bucket := Some "originals"; get_Key := "images/rio/1.jpg" |}) /\
  originalImagePath path <> Js.join "/" ["rio"; "1.jpg"].
Proof. cbn zeta. repeat split. vm_compute. discriminate. Qed.

(** C7, amended: for every authenticated GET request the handler splits the
    path on '/', takes the last segment as the operations token, drops the
    first element of the split and joins the rest with '/'; that is the key
    of the fetch.  For a path [first/rest/token] the key is [rest], all that
    lies between the first and the last slash: with a path that begins with
    '/' the dropped element is the empty string, and a routing prefix after
    that slash is part of the key. *)
Theorem fetch_key_of_path env S3_getObject S3_putObject Sharp_new Sharp_chain elapsed
    event request :
  Authenticated env event ->
  GetRequest event request ->
  let result :=
    run (handler env S3_getObject S3_putObject Sharp_new Sharp_chain elapsed event) in
  let segments := Js.split "/" (path request) in
  (exists rest,
     snd result =
       S3GetObject {| get_Bucket := originalImageBucketName env;
                      get_Key := Js.join "/" (tail (removelast segments)) |} :: rest) /\
  operationsPrefix (path request) = last segments /\
  (forall first rest token,
     includes "/" first = false -> includes "/" token = false ->
     path request = first +:+ "/" +:+ rest +:+ "/" +:+ token ->
     originalImagePath (path request) = rest /\
     operationsPrefix (path request) = Some token).
Proof.
  intros Ha Hg. cbn zeta. split; [|split].
  - exact (ends_begin_with_fetch _ _ _ _ _ _ _ _ _ _ Ha Hg (invoke_ends _ _ _ _ _ _ _)).
  - reflexivity.
  - intros first rest token Hf Ht Hp. unfold originalImagePath, operationsPrefix.
    now rewrite Hp, (parsePath_shape _ _ _ Hf Ht).
Qed.

Lemma fetch_key_of_path_witness :
  let event := Mock.request (Some "0123abcd") "GET" "/images/rio/1.jpg/format=webp,width=200" in
  (exists rest,
     snd (run (Mock.handler event)) =
       S3GetObject {| get_Bucket := Some "originals"; get_Key := "images/rio/1.jpg" |} :: rest) /\
  operationsPrefix "/images/rio/1.jpg/format=webp,width=200" = Some "format=webp,width=200".
Proof.
  cbn zeta.
  destruct (fetch_key_of_path Mock.env Mock.S3_getObject Mock.S3_putObject Mock.Sharp_new
              Mock.Sharp_chain Mock.elapsed _ _
              (mock_authenticated _ _ "GET" "/images/rio/1.jpg/format=webp,width=200")
              (mock_get_request _ _)) as (Hk & Ht & _).
  split; [exact Hk | exact Ht].
Defined.

(** ** The cache key *)

Lemma timing_log_no_store env elapsed put : S3PutObject put ∉ timing_log env elapsed.
Proof.
  unfold timing_log. destruct (bool_decide _); [|apply not_elem_of_nil].
  rewrite list_elem_of_singleton. discriminate.
Qed.

Lemma error_log_no_store message error put : S3PutObject put ∉ error_log message error.
Proof.
  unfold error_log. rewrite !elem_of_cons, elem_of_nil.
  intros [H | [H | []]]; discriminate.
Qed.

Local Ltac find_store H :=
  cbn [fst snd] in H;
  repeat first
    [ apply timing_log_no_store in H; destruct H
    | apply error_log_no_store in H; destruct H
    | discriminate H
    | apply elem_of_nil in H; destruct H
    | apply elem_of_app in H as [H | H]
    | apply elem_of_cons in H as [H | H] ].

(** C9: whenever the invocation writes a transformed image to the bucket for
    transformed images, the key is [originalImagePath + '/' + operationsPrefix]
    of the request path; and when that write succeeds, the invocation answers
    with status 200, with the bytes that were stored and with the content type
    that they were stored under. *)
Theorem stored_under_cache_key env S3_getObject S3_putObject Sharp_new Sharp_chain elapsed
    event put :
  let result :=
    run (handler env S3_getObject S3_putObject Sharp_new Sharp_chain elapsed event) in
  S3PutObject put ∈ snd result ->
  exists request token,
    GetRequest event request /\
    operationsPrefix (path request) = Some token /\
    put_Bucket put = transformedImageBucketName env /\
    put_Key put = originalImagePath (path request) +:+ "/" +:+ token /\
    (S3_putObject put = Resolved tt ->
     exists response,
       fst result = Returned response /\
       statusCode response = 200 /\
       body response = Js.base64 (put_Body put) /\
       Content_Type <$> response_headers response = Some (put_ContentType put)).
Proof.
  cbn zeta. intros H.
  destruct (invoke_ends env S3_getObject S3_putObject Sharp_new Sharp_chain elapsed event)
    as [Hc | _ Hm | r t e Hr | r t i e Hr | r t i e Hr ? ? | r t i b e Hr ? ? ? ? ? ? Hw
       | r t i b Hr | r t i b Hr];
    find_store H.
  - injection H as ->. destruct Hr as [_ Hg Ht].
    exists r, t. repeat split; try assumption; try apply Hg. congruence.
  - injection H as ->. destruct Hr as [_ Hg Ht].
    exists r, t. repeat split; try assumption; try apply Hg.
    intros _. eexists. repeat split.
Qed.

Lemma stored_under_cache_key_witness :
  let event := Mock.request (Some "0123abcd") "GET" "/images/rio/1.jpg/format=png,quality=80" in
  let put := {| put_Body := Body Mock.image; put_Bucket := Some "transformed";
                put_Key := "images/rio/1.jpg/format=png,quality=80";
                put_ContentType := Some "image/png";
                put_Metadata_cache_control := Some "max-age=31622400" |} in
  S3PutObject put ∈ snd (run (Mock.handler event)) /\
  exists request token,
    GetRequest event request /\
    operationsPrefix (path request) = Some token /\
    put_Key put = originalImagePath (path request) +:+ "/" +:+ token.
Proof.
  cbn zeta.
  assert (H : S3PutObject
                {| put_Body := Body Mock.image; put_Bucket := Some "transformed";
                   put_Key := "images/rio/1.jpg/format=png,quality=80";
                   put_ContentType := Some "image/png";
                   put_Metadata_cache_control := Some "max-age=31622400" |}
              ∈ snd (run (Mock.handler
                            (Mock.request (Some "0123abcd") "GET"
                               "/images/rio/1.jpg/format=png,quality=80")))).
  { vm_compute. do 3 apply list_elem_of_further. apply list_elem_of_here. }
  split; [exact H|].
  destruct (stored_under_cache_key Mock.env Mock.S3_getObject Mock.S3_putObject Mock.Sharp_new
              Mock.Sharp_chain Mock.elapsed _ _ H)
    as (request & token & Hg & Ht & _ & Hk & _).
  exists request, token. repeat split; try assumption; apply Hg.
Defined.

(** ** The transformation *)

Lemma transformation_unrecognized o contentType format :
  get_prop o "format" = Some format -> format <> "" -> format ∉ recognized_formats ->
  transformation o contentType =
    ([rotate; resize (resizingOptions o);
      toFormat format (if Js.truthy (get_prop o "quality")
                       then Js.parseInt <$> get_prop o "quality" else None)],
     Some "image/jpeg").
Proof.
  intros Hf Hne Hn. unfold transformation. rewrite Hf, (truthy_nonempty _ Hne).
  change (default "" (Some format)) with format.
  unfold recognized_formats in Hn. rewrite !not_elem_of_cons in Hn.
  destruct Hn as (H1 & H2 & H3 & H4 & H5 & H6 & _).
  apply String.eqb_neq in H1, H2, H3, H4, H5, H6. rewrite H1, H2, H3, H4, H5, H6.
  rewrite andb_true_r. now destruct (Js.truthy (get_prop o "quality")).
Qed.

(** The message "error transforming image" is the answer exactly when the
    engine rejects the calls it is handed. *)
Lemma transform_error_iff env S3_getObject S3_putObject Sharp_new Sharp_chain elapsed
    event request token image :
  Authenticated env event ->
  GetRequest event request ->
  operationsPrefix (path request) = Some token ->
  S3_getObject (fetch_request env (path request)) = Resolved image ->
  Sharp_new (Body image) = None ->
  fst (run (handler env S3_getObject S3_putObject Sharp_new Sharp_chain elapsed event))
    = Returned (error_response 500 "error transforming image") <->
  exists error,
    Sharp_chain (Body image)
      (fst (transformation (parseOperations token) (ContentType image))) = Rejected error.
Proof.
  intros Ha Hg Ht Hf Hn. split.
  - intros H.
    destruct (Sharp_chain (Body image) _) as [buffer|error] eqn:Hc; [|now exists error].
    destruct (Js.truthy (transformedImageBucketName env)) eqn:Hb.
    + destruct (S3_putObject
                  (store_request env (path request) token buffer
                     (snd (transformation (parseOperations token) (ContentType image)))))
        as [[]|error] eqn:Hw.
      * erewrite invoke_stored in H by eassumption. discriminate H.
      * erewrite invoke_write_rejected in H by eassumption. discriminate H.
    + erewrite invoke_not_stored in H by eassumption. discriminate H.
  - intros [error Hc]. now erewrite invoke_transform_rejected by eassumption.
Qed.

(** C2, as stated, fails: the unrecognized value itself is what the engine is
    told to encode, not jpeg; an engine that knows no such format rejects the
    call and the request fails, while the same request for jpeg succeeds.  A
    format that is present with an empty value is not taken for jpeg either:
    it is treated as absent. *)
Lemma unrecognized_format_reaches_engine :
  let bmp := Mock.request (Some "0123abcd") "GET" "/images/rio/1.jpg/format=bmp" in
  let jpeg := Mock.request (Some "0123abcd") "GET" "/images/rio/1.jpg/format=jpeg" in
  parseOperations "format=" !! "format" = Some (Some "") /\
  transformation (parseOperations "format=") (Some "image/png")
    = ([rotate; resize {| width := None; height := None |}], Some "image/png") /\
  get_prop (parseOperations "format=bmp") "format" = Some "bmp" /\
  ("bmp" ∉ recognized_formats) /\
  fst (transformation (parseOperations "format=bmp") (ContentType Mock.image))
    = [rotate; resize {| width := None; height := None |}; toFormat "bmp" None] /\
  fst (transformation (parseOperations "format=jpeg") (ContentType Mock.image))
    = [rotate; resize {| width := None; height := None |}; toFormat "jpeg" None] /\
  fst (run (Mock.handler jpeg))
    = Returned (image_response Mock.env (Body Mock.image) (Some "image/jpeg")) /\
  fst (run (Mock.handler bmp)) = Returned (error_response 500 "error transforming image").
Proof.
  cbn zeta. repeat split; try (vm_compute; reflexivity).
  unfold recognized_formats. rewrite !not_elem_of_cons. repeat split; try discriminate.
  apply not_elem_of_nil.
Qed.

(** C2, amended: when the [format] value of the parsed operations is not
    empty and is none of jpeg, png, gif, webp, avif, svg, the handler sets the
    content type to image/jpeg and treats the format as lossy (a [quality]
    that is not empty is parsed and passed on), but it passes the unrecognized
    value itself to [toFormat].  The request fails with status 500 "error
    transforming image" if the engine rejects these calls; if the engine
    accepts them, the content type of the answer is image/jpeg. *)
Theorem unrecognized_format env S3_getObject S3_putObject Sharp_new Sharp_chain elapsed
    event request token image format :
  Authenticated env event ->
  GetRequest event request ->
  operationsPrefix (path request) = Some token ->
  S3_getObject (fetch_request env (path request)) = Resolved image ->
  Sharp_new (Body image) = None ->
  let operations := parseOperations token in
  get_prop operations "format" = Some format ->
  format <> "" ->
  format ∉ recognized_formats ->
  let quality := get_prop operations "quality" in
  let calls :=
    [rotate; resize (resizingOptions operations);
     toFormat format (if Js.truthy quality then Js.parseInt <$> quality else None)] in
  let result :=
    run (handler env S3_getObject S3_putObject Sharp_new Sharp_chain elapsed event) in
  transformation operations (ContentType image) = (calls, Some "image/jpeg") /\
  (forall error,
     Sharp_chain (Body image) calls = Rejected error ->
     fst result = Returned (error_response 500 "error transforming image")) /\
  (forall buffer,
     Sharp_chain (Body image) calls = Resolved buffer ->
     fst result = Returned (image_response env buffer (Some "image/jpeg")) \/
     fst result = Returned (error_response 500 "Could not upload transformed image to S3.")).
Proof.
  intros Ha Hg Ht Hf Hn operations Hfmt Hne Hun quality calls result.
  pose proof (transformation_unrecognized operations (ContentType image) format Hfmt Hne Hun)
    as Hplan.
  fold quality calls in Hplan. split; [exact Hplan|]. split.
  - intros error Hc. apply (transform_error_iff _ _ _ _ _ _ _ _ _ _ Ha Hg Ht Hf Hn).
    exists error. fold operations. now rewrite Hplan.
  - intros buffer Hc. subst result.
    assert (Hc' : Sharp_chain (Body image)
                    (fst (transformation (parseOperations token) (ContentType image)))
                  = Resolved buffer) by (fold operations; now rewrite Hplan).
    assert (Hs : snd (transformation (parseOperations token) (ContentType image))
                 = Some "image/jpeg") by (fold operations; now rewrite Hplan).
    destruct (Js.truthy (transformedImageBucketName env)) eqn:Hb.
    + destruct (S3_putObject
                  (store_request env (path request) token buffer
                     (snd (transformation (parseOperations token) (ContentType image)))))
        as [[]|error] eqn:Hw.
      * left. erewrite invoke_stored by eassumption. cbn [fst]. now rewrite Hs.
      * right. now erewrite invoke_write_rejected by eassumption.
    + left. erewrite invoke_not_stored by eassumption. cbn [fst]. now rewrite Hs.
Qed.

Lemma unrecognized_format_witness :
  let tiff := Mock.request (Some "0123abcd") "GET" "/images/rio/1.jpg/format=tiff,quality=80" in
  let bmp := Mock.request (Some "0123abcd") "GET" "/images/rio/1.jpg/format=bmp" in
  transformation (parseOperations "format=tiff,quality=80") (ContentType Mock.image)
    = ([rotate; resize {| width := None; height := None |};
        toFormat "tiff" (Some (Js.Int 80))], Some "image/jpeg") /\
  fst (run (Mock.handler bmp)) = Returned (error_response 500 "error transforming image").
Proof.
  cbn zeta. split.
  - assert (Hn : "tiff" ∉ recognized_formats).
    { unfold recognized_formats. rewrite !not_elem_of_cons.
      repeat split; try discriminate. apply not_elem_of_nil. }
    assert (He : "tiff" <> "") by discriminate.
    exact (proj1 (unrecognized_format Mock.env Mock.S3_getObject Mock.S3_putObject
                    Mock.Sharp_new Mock.Sharp_chain Mock.elapsed _ _
                    "format=tiff,quality=80" Mock.image "tiff"
                    (mock_authenticated _ _ "GET" "/images/rio/1.jpg/format=tiff,quality=80")
                    (mock_get_request _ _) eq_refl eq_refl eq_refl eq_refl He Hn)).
  - assert (Hn : "bmp" ∉ recognized_formats).
    { unfold recognized_formats. rewrite !not_elem_of_cons.
      repeat split; try discriminate. apply not_elem_of_nil. }
    assert (He : "bmp" <> "") by discriminate.
    exact (proj1 (proj2 (unrecognized_format Mock.env Mock.S3_getObject Mock.S3_putObject
                    Mock.Sharp_new Mock.Sharp_chain Mock.elapsed _ _
                    "format=bmp" Mock.image "bmp"
                    (mock_authenticated _ _ "GET" "/images/rio/1.jpg/format=bmp")
                    (mock_get_request _ _) eq_refl eq_refl eq_refl eq_refl He Hn))
             "Error: Invalid parameter" eq_refl).
Defined.

(** C3, as stated, fails: a [width] that is not a number is not dropped.  It
    goes through [parseInt] and reaches [resize] as NaN, which is not what
    the engine is handed when the key is absent; an engine that wants a
    positive integer rejects it and the request fails. *)
Lemma non_numeric_width_is_not_dropped :
  let operations := parseOperations "width=abc" in
  let bad := Mock.request (Some "0123abcd") "GET" "/images/rio/1.jpg/width=abc" in
  let absent := Mock.request (Some "0123abcd") "GET" "/images/rio/1.jpg/original" in
  resizingOptions operations = {| width := Some Js.NaN; height := None |} /\
  resizingOptions (delete "width" operations) = {| width := None; height := None |} /\
  transformation operations (ContentType Mock.image)
    <> transformation (delete "width" operations) (ContentType Mock.image) /\
  fst (run (Mock.handler bad)) = Returned (error_response 500 "error transforming image") /\
  fst (run (Mock.handler absent))
    = Returned (image_response Mock.env (Body Mock.image) (Some "image/jpeg")).
Proof. cbn zeta. repeat split; try (vm_compute; reflexivity). vm_compute. discriminate. Qed.

(** C3, amended: a recognized key whose value is missing or empty is dropped,
    the transformation being the one of the operations without that key.  A
    [width] or [height] that is not empty is never dropped: it is handed to
    [resize] as [parseInt] reads it, NaN included.  The handler answers
    "error transforming image" exactly when the engine rejects the calls. *)
Theorem malformed_operations env S3_getObject S3_putObject Sharp_new Sharp_chain elapsed
    event request token image :
  Authenticated env event ->
  GetRequest event request ->
  operationsPrefix (path request) = Some token ->
  S3_getObject (fetch_request env (path request)) = Resolved image ->
  Sharp_new (Body image) = None ->
  let operations := parseOperations token in
  let result :=
    run (handler env S3_getObject S3_putObject Sharp_new Sharp_chain elapsed event) in
  (forall k,
     k ∈ recognized_keys -> Js.truthy (get_prop operations k) = false ->
     transformation operations (ContentType image)
       = transformation (delete k operations) (ContentType image)) /\
  (forall v,
     get_prop operations "width" = Some v -> v <> "" ->
     width (resizingOptions operations) = Some (Js.parseInt v)) /\
  (forall v,
     get_prop operations "height" = Some v -> v <> "" ->
     height (resizingOptions operations) = Some (Js.parseInt v)) /\
  (fst result = Returned (error_response 500 "error transforming image") <->
   exists error,
     Sharp_chain (Body image) (fst (transformation operations (ContentType image)))
       = Rejected error).
Proof.
  intros Ha Hg Ht Hf Hn operations result. repeat apply conj.
  - intros k Hk Hv. now apply transformation_falsy.
  - intros v Hv Hne. unfold resizingOptions. cbn [width].
    now rewrite Hv, (truthy_nonempty _ Hne).
  - intros v Hv Hne. unfold resizingOptions. cbn [height].
    now rewrite Hv, (truthy_nonempty _ Hne).
  - exact (proj1 (transform_error_iff _ _ _ _ _ _ _ _ _ _ Ha Hg Ht Hf Hn)).
  - exact (proj2 (transform_error_iff _ _ _ _ _ _ _ _ _ _ Ha Hg Ht Hf Hn)).
Qed.

Lemma malformed_operations_witness :
  let operations := parseOperations "width=,height=12px,quality" in
  transformation operations (ContentType Mock.image)
    = transformation (delete "width" operations) (ContentType Mock.image) /\
  height (resizingOptions operations) = Some (Js.Int 12).
Proof.
  cbn zeta.
  destruct (malformed_operations Mock.env Mock.S3_getObject Mock.S3_putObject
              Mock.Sharp_new Mock.Sharp_chain Mock.elapsed _ _
              "width=,height=12px,quality" Mock.image
              (mock_authenticated _ _ "GET" "/images/rio/1.jpg/width=,height=12px,quality")
              (mock_get_request _ _) eq_refl eq_refl eq_refl) as (Hd & _ & Hh & _).
  split.
  - apply Hd; [|reflexivity]. unfold recognized_keys. rewrite !elem_of_cons. tauto.
  - apply (Hh "12px"); [reflexivity | discriminate].
Defined.

(** C5: two operations maps that differ only in [quality], with a lossless
    [format] (png, gif or svg), hand the same calls to the engine, so the
    transformed bytes are the same; for instance [format=png,quality=50] and
    [format=png].  A quality is passed to [toFormat] only with a format that
    is not lossless. *)
Theorem quality_ignored_for_lossless
    (Sharp_chain : Buffer -> list SharpCall -> result Buffer) (input : Buffer)
    (o1 o2 : gmap string (option string)) contentType format :
  get_prop o1 "format" = Some format ->
  format ∈ lossless_formats ->
  (forall k, k <> "quality" -> o1 !! k = o2 !! k) ->
  transformation o1 contentType = transformation o2 contentType /\
  Sharp_chain input (fst (transformation o1 contentType))
    = Sharp_chain input (fst (transformation o2 contentType)) /\
  (forall o f q,
     toFormat f (Some q) ∈ fst (transformation o contentType) ->
     (f ∉ lossless_formats) /\ Js.truthy (get_prop o "quality") = true).
Proof.
  intros Hf Hl Hk.
  assert (He : transformation o1 contentType = transformation o2 contentType).
  { unfold transformation, resizingOptions.
    rewrite <- !(get_prop_agree o1 o2 "width"), <- !(get_prop_agree o1 o2 "height"),
      <- !(get_prop_agree o1 o2 "format") by (apply Hk; discriminate).
    rewrite Hf. unfold lossless_formats in Hl. rewrite !elem_of_cons, elem_of_nil in Hl.
    destruct Hl as [-> | [-> | [-> | []]]]; cbn; now rewrite !andb_false_r. }
  split; [exact He|]. split; [now rewrite He|].
  intros o f q. unfold transformation, lossless_formats.
  destruct (Js.truthy (get_prop o "format")).
  2:{ cbn. rewrite !elem_of_cons, elem_of_nil. intros [H | [H | []]]; discriminate H. }
  destruct (Js.truthy (get_prop o "quality")) eqn:Hq.
  2:{ destruct (if String.eqb _ _ then _ else _) as [c l]. cbn.
      rewrite !elem_of_cons, elem_of_nil. intros [H | [H | [H | []]]]; discriminate H. }
  generalize (default "" (get_prop o "format")). intros fmt.
  assert (Hin : forall c, toFormat f (Some q)
                  ∈ [rotate; resize (resizingOptions o); c] -> toFormat f (Some q) = c).
  { intros c. rewrite !elem_of_cons, elem_of_nil.
    intros [H | [H | [H | []]]]; [discriminate H | discriminate H | exact H]. }
  repeat match goal with
         | |- context [String.eqb fmt ?s] => destruct (String.eqb_spec fmt s)
         end;
    cbn; intros H; apply Hin in H; try discriminate H;
    injection H as -> _; (split; [|reflexivity]); subst;
    rewrite !not_elem_of_cons; repeat split; try assumption; try discriminate;
    apply not_elem_of_nil.
Qed.

Lemma quality_ignored_for_lossless_witness :
  transformation (parseOperations "format=png,quality=50") (Some "image/jpeg")
    = transformation (parseOperations "format=png") (Some "image/jpeg") /\
  Mock.Sharp_chain (Body Mock.image)
    (fst (transformation (parseOperations "format=png,quality=50") (Some "image/jpeg")))
    = Mock.Sharp_chain (Body Mock.image)
        (fst (transformation (parseOperations "format=png") (Some "image/jpeg"))).
Proof.
  assert (Hl : "png" ∈ lossless_formats) by (unfold lossless_formats; apply list_elem_of_here).
  assert (Hk : forall k, k <> "quality" ->
               parseOperations "format=png,quality=50" !! k = parseOperations "format=png" !! k).
  { intros k Hk. rewrite !parseOperations_lookup.
    change (Js.split "," "format=png,quality=50") with (Js.split "," "format=png" ++ ["quality=50"]).
    rewrite last_occurrence_snoc.
    destruct (decide (segment_key "quality=50" = k)) as [<-|_]; [|reflexivity].
    now contradict Hk. }
  destruct (quality_ignored_for_lossless Mock.Sharp_chain (Body Mock.image)
              (parseOperations "format=png,quality=50") (parseOperations "format=png")
              (Some "image/jpeg") "png" eq_refl Hl Hk) as (He & Hc & _).
  split; [exact He | exact Hc].
Defined.

(** ** The parser *)

(** C6: the operations token is split on ',' and each segment on '=' into a
    key and a value; the value of a key is the one of its last segment.  The
    transformation reads the four recognized keys only, so any other key is
    left unused, and nothing in the parsing can fail.  For the token
    "original" the transformation has no size and no format: the content type
    stays the one of the original.  (An assignment to [__proto__] leaves no
    property behind, as in JavaScript.) *)
Theorem parse_operations_token token :
  (forall k,
     parseOperations token !! k =
       if decide (k = "__proto__") then None
       else last_occurrence k (Js.split "," token)) /\
  (forall o1 o2 contentType,
     (forall k, k ∈ recognized_keys -> get_prop o1 k = get_prop o2 k) ->
     transformation o1 contentType = transformation o2 contentType) /\
  (forall contentType,
     transformation (parseOperations "original") contentType
       = ([rotate; resize {| width := None; height := None |}], contentType)).
Proof.
  split; [|split].
  - apply parseOperations_lookup.
  - apply transformation_ext.
  - reflexivity.
Qed.

Lemma parse_operations_token_witness :
  parseOperations "width=100,format=webp,width=200,fit=cover" !! "width" = Some (Some "200") /\
  transformation (parseOperations "width=100,format=webp,width=200,fit=cover") None
    = transformation (parseOperations "format=webp,width=200") None.
Proof.
  destruct (parse_operations_token "width=100,format=webp,width=200,fit=cover")
    as (Hl & He & _).
  split.
  - rewrite Hl. reflexivity.
  - apply He. intros k Hk. unfold recognized_keys in Hk.
    rewrite !elem_of_cons, elem_of_nil in Hk.
    destruct Hk as [-> | [-> | [-> | [-> | []]]]]; reflexivity.
Defined.

(** ** Further properties of the handler *)

Lemma auth_gate_dichotomy env event :
  Authenticated env event \/
  (let secret := headers event !! "x-origin-secret-header" in
   Js.truthy secret = false \/ secret <> secretKey env).
Proof.
  cbn zeta. unfold Authenticated.
  destruct (headers event !! "x-origin-secret-header") as [s|]; [|right; now left].
  destruct (decide (s = "")) as [->|Hs]; [right; now left|].
  destruct (decide (Some s = secretKey env)) as [Hk|Hk]; [|right; now right].
  left. exists s. repeat split; [assumption | now symmetry].
Qed.

(** X1: when the original cannot be fetched, an authenticated GET request is
    answered with status 500 and the fixed message; the fetch is the only
    call the invocation makes: nothing is transformed, nothing is stored, and
    the error of the storage goes to the log only. *)
Theorem fetch_failure env S3_getObject S3_putObject Sharp_new Sharp_chain elapsed
    event request error :
  Authenticated env event ->
  GetRequest event request ->
  S3_getObject (fetch_request env (path request)) = Rejected error ->
  let result :=
    run (handler env S3_getObject S3_putObject Sharp_new Sharp_chain elapsed event) in
  fst result = Returned (error_response 500 "Error downloading original image.") /\
  snd result =
    [S3GetObject (fetch_request env (path request));
     ConsoleLog [LogString "APPLICATION ERROR"; LogString "Error downloading original image."];
     ConsoleLog [LogError error]] /\
  calls is_engine (snd result) = 0%nat /\
  calls is_put (snd result) = 0%nat.
Proof.
  intros Ha Hg Hf. cbn zeta.
  destruct (operationsPrefix_defined (path request)) as [token Ht].
  rewrite (invoke_fetch_rejected _ _ _ _ _ _ _ _ _ Ha Hg Ht _ Hf). repeat split.
Qed.

Lemma fetch_failure_witness :
  let event := Mock.request (Some "0123abcd") "GET" "/images/rio/2.jpg/width=10" in
  fst (run (Mock.handler event))
    = Returned (error_response 500 "Error downloading original image.") /\
  calls is_engine (snd (run (Mock.handler event))) = 0%nat.
Proof.
  cbn zeta.
  destruct (fetch_failure Mock.env Mock.S3_getObject Mock.S3_putObject Mock.Sharp_new
              Mock.Sharp_chain Mock.elapsed _ _ "NoSuchKey: The specified key does not exist."
              (mock_authenticated _ _ "GET" "/images/rio/2.jpg/width=10")
              (mock_get_request _ _) eq_refl) as (Hr & _ & He & _).
  split; [exact Hr | exact He].
Defined.


(** X3: every answer of the handler has one of two shapes.  Either it has
    status 200, is flagged as base64 and carries the configured cache
    control, or it is one of five fixed error objects (403, 400 and three
    500s) that carry no header and no data of the request, of the storage or
    of the engine. *)
Theorem response_shapes env S3_getObject S3_putObject Sharp_new Sharp_chain elapsed event
    response :
  fst (run (handler env S3_getObject S3_putObject Sharp_new Sharp_chain elapsed event))
    = Returned response ->
  (statusCode response = 200 /\ isBase64Encoded response = true /\
   exists contentType,
     response_headers response =
       Some {| Content_Type := contentType;
               Cache_Control := transformedImageCacheTTL env |}) \/
  (response ∈ error_responses /\ statusCode response <> 200 /\
   response_headers response = None).
Proof.
  intros H.
  destruct (invoke_ends env S3_getObject S3_putObject Sharp_new Sharp_chain elapsed event)
    as [Hc | _ Hm | r t e Hr | r t i e Hr Hf Hn | r t i e Hr | r t i b e Hr
       | r t i b Hr | r t i b Hr];
    try discriminate H; injection H as <-;
    try (left; repeat split; eexists; reflexivity);
    right; (split; [|split; [discriminate | reflexivity]]);
    unfold error_responses; rewrite !elem_of_cons; tauto.
Qed.

Lemma response_shapes_witness :
  fst (run (Mock.handler (Mock.request (Some "0123abcd") "GET" "/images/rio/1.jpg/width=0")))
    = Returned (error_response 500 "error transforming image") /\
  error_response 500 "error transforming image" ∈ error_responses.
Proof.
  split; [reflexivity|].
  destruct (response_shapes Mock.env Mock.S3_getObject Mock.S3_putObject Mock.Sharp_new
              Mock.Sharp_chain Mock.elapsed
              (Mock.request (Some "0123abcd") "GET" "/images/rio/1.jpg/width=0")
              (error_response 500 "error transforming image") eq_refl)
    as [(H & _) | (H & _)]; [discriminate H | exact H].
Defined.

(** X4: the status tells the gate.  403 is answered exactly when the request
    is not authenticated, and 400 exactly when it is authenticated and its
    method is not GET (or the event has no HTTP description). *)
Theorem status_of_gates env S3_getObject S3_putObject Sharp_new Sharp_chain elapsed event :
  let result :=
    run (handler env S3_getObject S3_putObject Sharp_new Sharp_chain elapsed event) in
  ((exists response, fst result = Returned response /\ statusCode response = 403) <->
   ~ Authenticated env event) /\
  ((exists response, fst result = Returned response /\ statusCode response = 400) <->
   Authenticated env event /\ method <$> (requestContext event ≫= http) <> Some "GET").
Proof.
  cbn zeta. split; split.
  - intros (response & H & Hs) Ha.
    destruct (invoke_ends env S3_getObject S3_putObject Sharp_new Sharp_chain elapsed event)
      as [Hc | _ Hm | r t e Hr | r t i e Hr Hf Hn | r t i e Hr | r t i b e Hr
         | r t i b Hr | r t i b Hr];
      try discriminate H; injection H as <-; try discriminate Hs.
    now apply auth_gate_exclusive in Hc.
  - intros Hn. destruct (auth_gate_dichotomy env event) as [Ha | Hc]; [now destruct Hn|].
    rewrite (invoke_unauthorized _ _ _ _ _ _ _ Hc). now eexists.
  - intros (response & H & Hs).
    destruct (invoke_ends env S3_getObject S3_putObject Sharp_new Sharp_chain elapsed event)
      as [Hc | Ha Hm | r t e Hr | r t i e Hr Hf Hn | r t i e Hr | r t i b e Hr
         | r t i b Hr | r t i b Hr];
      try discriminate H; injection H as <-; try discriminate Hs.
    now split.
  - intros [Ha Hm]. rewrite (invoke_not_get _ _ _ _ _ _ _ Ha Hm). now eexists.
Qed.

Local Ltac solve_calls :=
  unfold timing_log, error_log, calls;
  repeat match goal with
         | |- context [bool_decide ?P] => destruct (bool_decide P)
         end;
  vm_compute; lia.

(** X5: an invocation fetches at most once, runs the chain of the engine at
    most once and stores at most once; and before anything else than a log
    line it fetches: a trace without a fetch has no call of the engine and no
    write. *)
Theorem calls_at_most_once env S3_getObject S3_putObject Sharp_new Sharp_chain elapsed event :
  let trace :=
    snd (run (handler env S3_getObject S3_putObject Sharp_new Sharp_chain elapsed event)) in
  (calls is_fetch trace <= 1)%nat /\
  (calls is_chain trace <= 1)%nat /\
  (calls is_put trace <= 1)%nat /\
  (calls is_put trace <= calls is_chain trace)%nat /\
  (calls is_engine trace + calls is_put trace <= 3 * calls is_fetch trace)%nat.
Proof.
  cbn zeta.
  destruct (invoke_ends env S3_getObject S3_putObject Sharp_new Sharp_chain elapsed event)
    as [Hc | _ Hm | r t e Hr | r t i e Hr Hf Hn | r t i e Hr | r t i b e Hr
       | r t i b Hr | r t i b Hr];
    repeat split; solve_calls.
Qed.

(** X6: what is stored is what the engine made of the original that was
    fetched for this request: a write in the trace comes after the fetch and
    the chain of the engine, its bytes are the output of that chain and its
    content type and cache control are the ones of the transformation and of
    the configuration. *)
Theorem stored_bytes_are_engine_output env S3_getObject S3_putObject Sharp_new Sharp_chain
    elapsed event put :
  let trace :=
    snd (run (handler env S3_getObject S3_putObject Sharp_new Sharp_chain elapsed event)) in
  S3PutObject put ∈ trace ->
  exists request token image rest,
    Reached env event request token /\
    S3_getObject (fetch_request env (path request)) = Resolved image /\
    let plan := transformation (parseOperations token) (ContentType image) in
    Sharp_chain (Body image) (fst plan) = Resolved (put_Body put) /\
    put_ContentType put = snd plan /\
    put_Metadata_cache_control put = transformedImageCacheTTL env /\
    Js.truthy (put_Bucket put) = true /\
    trace = [S3GetObject (fetch_request env (path request)); SharpNew (Body image);
             SharpChain (Body image) (fst plan); S3PutObject put] ++ rest /\
    Forall (fun e => is_log e = true) rest.
Proof.
  cbn zeta. intros H.
  destruct (invoke_ends env S3_getObject S3_putObject Sharp_new Sharp_chain elapsed event)
    as [Hc | _ Hm | r t e Hr | r t i e Hr | r t i e Hr ? ? | r t i b e Hr Hf Hn ? ? Hc Hb Hw
       | r t i b Hr Hf Hn ? ? Hc Hb Hw | r t i b Hr];
    find_store H; injection H as ->; exists r, t, i; eexists;
    (split; [exact Hr|]); (split; [exact Hf|]); cbn zeta;
    (split; [exact Hc|]); (split; [reflexivity|]); (split; [reflexivity|]);
    (split; [exact Hb|]); (split; [reflexivity|]).
  - repeat constructor.
  - unfold timing_log. destruct (bool_decide _); repeat constructor.
Qed.

Lemma stored_bytes_are_engine_output_witness :
  let event := Mock.request (Some "0123abcd") "GET" "/images/rio/1.jpg/width=32" in
  let put := store_request Mock.env "/images/rio/1.jpg/width=32" "width=32"
               (Body Mock.image) (Some "image/jpeg") in
  S3PutObject put ∈ snd (run (Mock.handler event)) /\
  exists image token,
    Mock.Sharp_chain (Body image) (fst (transformation (parseOperations token) (ContentType image)))
      = Resolved (put_Body put).
Proof.
  cbn zeta.
  assert (H : S3PutObject (store_request Mock.env "/images/rio/1.jpg/width=32" "width=32"
                             (Body Mock.image) (Some "image/jpeg"))
              ∈ snd (run (Mock.handler
                            (Mock.request (Some "0123abcd") "GET" "/images/rio/1.jpg/width=32")))).
  { vm_compute. do 3 apply list_elem_of_further. apply list_elem_of_here. }
  split; [exact H|].
  destruct (stored_bytes_are_engine_output Mock.env Mock.S3_getObject Mock.S3_putObject
              Mock.Sharp_new Mock.Sharp_chain Mock.elapsed _ _ H)
    as (request & token & image & rest & _ & _ & Hc & _).
  exists image, token. exact Hc.
Defined.

(** X7: without a bucket for transformed images (the variable unset or
    empty) no invocation ever writes to the storage, whatever the request. *)
Theorem no_write_without_bucket env S3_getObject S3_putObject Sharp_new Sharp_chain elapsed
    event :
  Js.truthy (transformedImageBucketName env) = false ->
  calls is_put
    (snd (run (handler env S3_getObject S3_putObject Sharp_new Sharp_chain elapsed event)))
    = 0%nat.
Proof.
  intros Hb.
  destruct (invoke_ends env S3_getObject S3_putObject Sharp_new Sharp_chain elapsed event)
    as [Hc | _ Hm | r t e Hr | r t i e Hr | r t i e Hr ? ? | r t i b e Hr Hf Hn ? ? Hc Hb' Hw
       | r t i b Hr Hf Hn ? ? Hc Hb' Hw | r t i b Hr];
    try congruence; solve_calls.
Qed.

Lemma no_write_without_bucket_witness :
  calls is_put
    (snd (run (handler Mock.env_no_store Mock.S3_getObject Mock.S3_putObject Mock.Sharp_new
                 Mock.Sharp_chain Mock.elapsed
                 (Mock.request (Some "0123abcd") "GET" "/images/rio/1.jpg/format=webp"))))
    = 0%nat /\
  calls is_put
    (snd (run (handler (Mock.deployment (Some "") (Some "0123abcd") None) Mock.S3_getObject
                 Mock.S3_putObject Mock.Sharp_new Mock.Sharp_chain Mock.elapsed
                 (Mock.request (Some "0123abcd") "GET" "/images/rio/1.jpg/format=webp"))))
    = 0%nat.
Proof.
  split.
  - exact (no_write_without_bucket Mock.env_no_store Mock.S3_getObject Mock.S3_putObject
             Mock.Sharp_new Mock.Sharp_chain Mock.elapsed _ eq_refl).
  - exact (no_write_without_bucket (Mock.deployment (Some "") (Some "0123abcd") None)
             Mock.S3_getObject Mock.S3_putObject Mock.Sharp_new Mock.Sharp_chain
             Mock.elapsed _ eq_refl).
Defined.

(** X8: the timing log is observational.  Another value of [logTiming]
    changes neither the answer nor any call: the two traces share everything
    but their end, which is the one "perf" line when the answer has status 200
    and [logTiming] is "true", and nothing otherwise. *)
Theorem timing_is_observational env S3_getObject S3_putObject Sharp_new Sharp_chain elapsed
    event log :
  let result :=
    run (handler env S3_getObject S3_putObject Sharp_new Sharp_chain elapsed event) in
  let result' :=
    run (handler (set_logTiming log env) S3_getObject S3_putObject Sharp_new Sharp_chain
           elapsed event) in
  let line (env : Env) : list Effect :=
    match fst result with
    | Returned response =>
        if statusCode response =? 200 then timing_log env elapsed else []
    | Threw _ => []
    end in
  fst result' = fst result /\
  exists base,
    snd result = base ++ line env /\
    snd result' = base ++ line (set_logTiming log env).
Proof.
  cbn zeta.
  destruct (invoke_ends env S3_getObject S3_putObject Sharp_new Sharp_chain elapsed event)
    as [Hc | Ha Hm | r t e [Ha Hg Ht] Hf | r t i e [Ha Hg Ht] Hf Hn
       | r t i e [Ha Hg Ht] Hf Hn ? Hc | r t i b e [Ha Hg Ht] Hf Hn ? ? Hc Hb Hw
       | r t i b [Ha Hg Ht] Hf Hn ? ? Hc Hb Hw | r t i b [Ha Hg Ht] Hf Hn ? Hc Hb].
  - rewrite (invoke_unauthorized (set_logTiming log env) _ _ _ _ _ _ Hc).
    split; [reflexivity|]. eexists. now rewrite !app_nil_r.
  - rewrite (invoke_not_get (set_logTiming log env) _ _ _ _ _ _ Ha Hm).
    split; [reflexivity|]. eexists. now rewrite !app_nil_r.
  - rewrite (invoke_fetch_rejected (set_logTiming log env) _ _ _ _ _ _ _ _ Ha Hg Ht _ Hf).
    split; [reflexivity|]. eexists. now rewrite !app_nil_r.
  - rewrite (invoke_constructor_throws (set_logTiming log env) _ _ _ _ _ _ _ _ Ha Hg Ht _ Hf
               _ Hn).
    split; [reflexivity|]. eexists. now rewrite !app_nil_r.
  - rewrite (invoke_transform_rejected (set_logTiming log env) _ _ _ _ _ _ _ _ Ha Hg Ht _ Hf
               Hn _ Hc).
    split; [reflexivity|]. eexists. now rewrite !app_nil_r.
  - rewrite (invoke_write_rejected (set_logTiming log env) _ _ _ _ _ _ _ _ Ha Hg Ht _ Hf
               Hn _ _ Hc Hb Hw).
    split; [reflexivity|]. eexists. now rewrite !app_nil_r.
  - rewrite (invoke_stored (set_logTiming log env) _ _ _ _ _ _ _ _ Ha Hg Ht _ Hf
               Hn _ Hc Hb Hw).
    split; [reflexivity|].
    exists [S3GetObject (fetch_request env (path r)); SharpNew (Body i);
            SharpChain (Body i) (fst plan); S3PutObject store].
    split; reflexivity.
  - rewrite (invoke_not_stored (set_logTiming log env) _ _ _ _ _ _ _ _ Ha Hg Ht _ Hf
               Hn _ Hc Hb).
    split; [reflexivity|].
    exists [S3GetObject (fetch_request env (path r)); SharpNew (Body i);
            SharpChain (Body i) (fst plan)].
    split; reflexivity.
Qed.

(** ** Further properties of the transformation *)

(** X9: whatever the operations are, the engine is first told to rotate and
    then to resize; [toFormat] follows exactly when the format has a value
    that is not empty, and is then given that very value.  Without such a
    value the content type stays the one of the original. *)
Theorem calls_of_transformation (operations : gmap string (option string)) contentType :
  exists rest,
    fst (transformation operations contentType)
      = rotate :: resize (resizingOptions operations) :: rest /\
    (Js.truthy (get_prop operations "format") = false ->
     rest = [] /\ snd (transformation operations contentType) = contentType) /\
    (forall format,
       get_prop operations "format" = Some format -> format <> "" ->
       exists quality, rest = [toFormat format quality]).
Proof.
  unfold transformation.
  destruct (get_prop operations "format") as [format|] eqn:Hf; cbn [Js.truthy].
  2:{ exists []. repeat split; discriminate. }
  destruct (String.eqb_spec format "") as [->|Hne]; cbn [negb].
  { exists []. repeat split. intros format [= <-] H. now destruct H. }
  change (default "" (Some format)) with format.
  destruct (if String.eqb format "jpeg" then _ else _) as [c l].
  destruct (Js.truthy (get_prop operations "quality") && l);
    eexists; (split; [reflexivity|]); (split; [discriminate|]);
    intros f [= <-] _; eexists; reflexivity.
Qed.

(** X10: for each of the six recognized formats the content type is the one
    of the table ("image/" and the name, "image/svg+xml" for svg), and a
    quality that is not empty is handed to [toFormat], as [parseInt] reads
    it, exactly for the lossy ones: jpeg, webp and avif. *)
Theorem recognized_formats_table (operations : gmap string (option string)) contentType
    format :
  get_prop operations "format" = Some format ->
  format ∈ recognized_formats ->
  let quality := get_prop operations "quality" in
  transformation operations contentType =
    ([rotate; resize (resizingOptions operations);
      toFormat format
        (if Js.truthy quality && bool_decide (format ∈ lossy_formats)
         then Js.parseInt <$> quality else None)],
     Some (content_type_of format)).
Proof.
  intros Hf Hin. unfold transformation. rewrite Hf.
  unfold recognized_formats in Hin. rewrite !elem_of_cons, elem_of_nil in Hin.
  destruct Hin as [-> | [-> | [-> | [-> | [-> | [-> | []]]]]]]; cbn;
    destruct (Js.truthy (get_prop operations "quality")); reflexivity.
Qed.

Lemma recognized_formats_table_witness :
  transformation (parseOperations "quality=70,format=avif") (Some "image/png")
    = ([rotate; resize {| width := None; height := None |};
        toFormat "avif" (Some (Js.Int 70))], Some "image/avif").
Proof.
  assert (Hin : "avif" ∈ recognized_formats).
  { unfold recognized_formats. rewrite !elem_of_cons. tauto. }
  exact (recognized_formats_table (parseOperations "quality=70,format=avif")
           (Some "image/png") "avif" eq_refl Hin).
Defined.

(** X11: when the operations name no format (the key is absent or its value
    is empty), an answer with status 200 carries the content type of the
    original as the storage gave it, also when that is undefined. *)
Theorem content_type_without_format env S3_getObject S3_putObject Sharp_new Sharp_chain
    elapsed event request token image response :
  Authenticated env event ->
  GetRequest event request ->
  operationsPrefix (path request) = Some token ->
  S3_getObject (fetch_request env (path request)) = Resolved image ->
  Js.truthy (get_prop (parseOperations token) "format") = false ->
  fst (run (handler env S3_getObject S3_putObject Sharp_new Sharp_chain elapsed event))
    = Returned response ->
  statusCode response = 200 ->
  response_headers response =
    Some {| Content_Type := ContentType image;
            Cache_Control := transformedImageCacheTTL env |}.
Proof.
  intros Ha Hg Ht Hf Hfmt H Hs.
  assert (Hplan : snd (transformation (parseOperations token) (ContentType image))
                  = ContentType image).
  { unfold transformation. now rewrite Hfmt. }
  destruct (invoke_ends env S3_getObject S3_putObject Sharp_new Sharp_chain elapsed event)
    as [Hc | _ Hm | r t e Hr | r t i e Hr | r t i e Hr ? ? | r t i b e Hr Hf' Hn ? ? Hc Hb Hw
       | r t i b Hr Hf' Hn ? ? Hc Hb Hw | r t i b Hr Hf' Hn ? Hc Hb];
    try discriminate H; injection H as <-; try discriminate Hs;
    destruct (reached_request _ _ _ _ _ Hg Hr) as [-> Ht'];
    assert (t = token) as -> by congruence;
    assert (i = image) as -> by congruence;
    subst plan; unfold image_response; cbn; now rewrite Hplan.
Qed.

Lemma content_type_without_format_witness :
  response_headers
    (image_response Mock.env (Body Mock.image) (Some "image/jpeg"))
    = Some {| Content_Type := ContentType Mock.image;
              Cache_Control := transformedImageCacheTTL Mock.env |}.
Proof.
  exact (content_type_without_format Mock.env Mock.S3_getObject Mock.S3_putObject
           Mock.Sharp_new Mock.Sharp_chain Mock.elapsed _ _ "width=40,format=" Mock.image _
           (mock_authenticated _ _ "GET" "/images/rio/1.jpg/width=40,format=")
           (mock_get_request _ _) eq_refl eq_refl eq_refl eq_refl eq_refl).
Defined.

(** ** Further properties of the path and of the parser *)

Lemma includes_app c a b : includes c (a +:+ b) = includes c a || includes c b.
Proof.
  induction a as [|x a IH]; [reflexivity|].
  rewrite append_String. cbn [includes]. now rewrite IH, orb_assoc.
Qed.

(** X12: a path with fewer than two slashes has no room for a key.  The whole
    path, or what follows its only slash, is the operations token; the key
    that is fetched is the empty string, and the key to store under would be
    the token with a slash before it. *)
Theorem short_path_has_empty_key env S3_getObject S3_putObject Sharp_new Sharp_chain elapsed
    event request first token :
  Authenticated env event ->
  GetRequest event request ->
  includes "/" first = false ->
  includes "/" token = false ->
  path request = token \/ path request = first +:+ "/" +:+ token ->
  parsePath (path request) = ("", Some token) /\
  (exists rest,
     snd (run (handler env S3_getObject S3_putObject Sharp_new Sharp_chain elapsed event))
       = S3GetObject {| get_Bucket := originalImageBucketName env; get_Key := "" |} :: rest) /\
  (forall buffer contentType,
     put_Key (store_request env (path request) token buffer contentType) = "/" +:+ token).
Proof.
  intros Ha Hg Hf Ht Hp.
  assert (Hparse : parsePath (path request) = ("", Some token)).
  { destruct Hp as [-> | ->]; unfold parsePath, Js.pop, Js.shift.
    - now rewrite (split_without _ _ Ht).
    - change (first +:+ "/" +:+ token) with (first +:+ String "/" token).
      now rewrite split_app, (split_without _ _ Hf), (split_without _ _ Ht). }
  split; [exact Hparse|]. split.
  - destruct (ends_begin_with_fetch _ _ _ _ _ _ _ _ _ _ Ha Hg
                (invoke_ends env S3_getObject S3_putObject Sharp_new Sharp_chain elapsed event))
      as [rest Hr].
    exists rest. rewrite Hr. unfold fetch_request, originalImagePath. now rewrite Hparse.
  - intros buffer contentType. unfold store_request, originalImagePath. cbn [put_Key].
    now rewrite Hparse.
Qed.

Lemma short_path_has_empty_key_witness :
  parsePath "/original" = ("", Some "original") /\
  exists rest,
    snd (run (Mock.handler (Mock.request (Some "0123abcd") "GET" "/original")))
      = S3GetObject {| get_Bucket := Some "originals"; get_Key := "" |} :: rest.
Proof.
  destruct (short_path_has_empty_key Mock.env Mock.S3_getObject Mock.S3_putObject
              Mock.Sharp_new Mock.Sharp_chain Mock.elapsed _ _ "" "original"
              (mock_authenticated _ _ "GET" "/original") (mock_get_request _ _)
              eq_refl eq_refl (or_intror eq_refl)) as (Hp & Hk & _).
  split; [exact Hp | exact Hk].
Defined.

(** X13: a token none of whose segments has a recognized key acts like
    "original": the engine rotates and resizes without a size, and the
    content type is the one of the original.  The empty token of a path
    that ends with a slash is such a token. *)
Theorem token_without_recognized_keys token contentType :
  (forall k, k ∈ recognized_keys -> last_occurrence k (Js.split "," token) = None) ->
  transformation (parseOperations token) contentType
    = ([rotate; resize {| width := None; height := None |}], contentType) /\
  transformation (parseOperations token) contentType
    = transformation (parseOperations "original") contentType.
Proof.
  intros H.
  assert (Hg : forall k, k ∈ recognized_keys -> get_prop (parseOperations token) k = None).
  { intros k Hk. unfold get_prop. rewrite parseOperations_lookup, (H k Hk).
    now destruct (decide _). }
  assert (He : transformation (parseOperations token) contentType
               = ([rotate; resize {| width := None; height := None |}], contentType)).
  { unfold transformation, resizingOptions.
    rewrite (Hg "format"), (Hg "width"), (Hg "height");
      [reflexivity | unfold recognized_keys; rewrite !elem_of_cons; tauto ..]. }
  split; [exact He | now rewrite He].
Qed.

Lemma token_without_recognized_keys_witness :
  transformation (parseOperations "fit=cover,blur") (Some "image/gif")
    = ([rotate; resize {| width := None; height := None |}], Some "image/gif") /\
  transformation (parseOperations "") None
    = ([rotate; resize {| width := None; height := None |}], None).
Proof.
  assert (H : forall token, Forall (fun k => last_occurrence k (Js.split "," token) = None)
                              recognized_keys ->
              forall k, k ∈ recognized_keys -> last_occurrence k (Js.split "," token) = None).
  { intros token HF k Hk. rewrite Forall_forall in HF. now apply HF. }
  split.
  - apply (token_without_recognized_keys "fit=cover,blur" (Some "image/gif")).
    apply H. repeat constructor.
  - apply (token_without_recognized_keys "" None).
    apply H. repeat constructor.
Defined.

Lemma segment_key_value k v :
  includes "=" k = false -> includes "=" v = false ->
  segment_key (k +:+ "=" +:+ v) = k /\ segment_value (k +:+ "=" +:+ v) = Some v.
Proof.
  intros Hk Hv. unfold segment_key, segment_value.
  change (k +:+ "=" +:+ v) with (k +:+ String "=" v).
  rewrite split_app, (split_without _ _ Hk), (split_without _ _ Hv). now split.
Qed.

(** X14: operations compose from left to right.  Adding [,k=v] at the end of
    a token sets [k] to [v] in the parsed operations and leaves every other
    key as it was, whether or not the token had a value for [k]. *)
Theorem appended_operation_overrides token k v :
  includes "," k = false -> includes "=" k = false ->
  includes "," v = false -> includes "=" v = false ->
  k <> "__proto__" ->
  parseOperations (token +:+ "," +:+ k +:+ "=" +:+ v)
    = <[k := Some v]> (parseOperations token) /\
  get_prop (parseOperations (token +:+ "," +:+ k +:+ "=" +:+ v)) k = Some v /\
  (forall k', k' <> k ->
     get_prop (parseOperations (token +:+ "," +:+ k +:+ "=" +:+ v)) k'
       = get_prop (parseOperations token) k').
Proof.
  intros Hkc Hke Hvc Hve Hp.
  assert (He : parseOperations (token +:+ "," +:+ k +:+ "=" +:+ v)
               = <[k := Some v]> (parseOperations token)).
  { unfold parseOperations.
    change (token +:+ "," +:+ k +:+ "=" +:+ v) with (token +:+ String "," (k +:+ "=" +:+ v)).
    rewrite split_app, fold_left_app.
    rewrite (split_without "," (k +:+ "=" +:+ v)).
    2:{ rewrite includes_app, Hkc. change ("=" +:+ v) with (String "=" v). cbn. exact Hvc. }
    cbn [fold_left]. unfold assign_operation at 1. cbn zeta.
    destruct (segment_key_value k v Hke Hve) as [Hk Hv].
    unfold segment_key, segment_value in Hk, Hv. rewrite Hk, Hv.
    unfold set_prop. now rewrite decide_False. }
  split; [exact He|]. rewrite He. unfold get_prop. split.
  - now rewrite lookup_insert_eq.
  - intros k' Hne. now rewrite lookup_insert_ne.
Qed.

Lemma appended_operation_overrides_witness :
  get_prop (parseOperations ("width=100,format=png" +:+ "," +:+ "width" +:+ "=" +:+ "300"))
    "width" = Some "300".
Proof.
  assert (Hp : "width" <> "__proto__") by discriminate.
  exact (proj1 (proj2 (appended_operation_overrides "width=100,format=png" "width" "300"
                         eq_refl eq_refl eq_refl eq_refl Hp))).
Defined.

Lemma assign_operation_commute (o : gmap string (option string)) a b :
  segment_key a <> segment_key b ->
  assign_operation (assign_operation o a) b = assign_operation (assign_operation o b) a.
Proof.
  intros H. unfold assign_operation. cbn zeta.
  fold (segment_key a) (segment_value a) (segment_key b) (segment_value b).
  unfold set_prop. repeat destruct (decide _); try reflexivity.
  now apply insert_insert_ne.
Qed.

Lemma fold_assign_permutation l1 l2 :
  l1 ≡ₚ l2 -> NoDup (segment_key <$> l1) ->
  forall o, fold_left assign_operation l1 o = fold_left assign_operation l2 o.
Proof.
  induction 1 as [|x l1 l2 Hp IH|x y l|l1 l2 l3 Hp1 IH1 Hp2 IH2]; intros Hn o.
  - reflexivity.
  - cbn. apply IH. now apply NoDup_cons_1_2 in Hn.
  - cbn. f_equal. apply assign_operation_commute.
    cbn in Hn. apply NoDup_cons_1_1 in Hn. rewrite elem_of_cons in Hn. intros E. apply Hn. now left.
  - rewrite IH1 by assumption. apply IH2. now rewrite <- Hp1.
Qed.

(** X15: the order of the segments does not matter as long as no key is
    repeated: two tokens whose segments are a permutation of each other, with
    pairwise different keys, parse to the same operations and ask the engine
    for the same calls. *)
Theorem segment_order_is_irrelevant token1 token2 contentType :
  Js.split "," token1 ≡ₚ Js.split "," token2 ->
  NoDup (segment_key <$> Js.split "," token1) ->
  parseOperations token1 = parseOperations token2 /\
  transformation (parseOperations token1) contentType
    = transformation (parseOperations token2) contentType.
Proof.
  intros Hp Hn.
  assert (He : parseOperations token1 = parseOperations token2)
    by (unfold parseOperations; now apply fold_assign_permutation).
  split; [exact He | now rewrite He].
Qed.

Lemma segment_order_is_irrelevant_witness :
  parseOperations "format=webp,width=200,quality=60"
    = parseOperations "quality=60,format=webp,width=200".
Proof.
  refine (proj1 (segment_order_is_irrelevant "format=webp,width=200,quality=60"
                   "quality=60,format=webp,width=200" None _ _)).
  - change (["format=webp"; "width=200"] ++ ["quality=60"]
            ≡ₚ ["quality=60"] ++ ["format=webp"; "width=200"]).
    apply Permutation_app_comm.
  - change (NoDup ["format"; "width"; "quality"]).
    repeat (apply NoDup_cons_2; [rewrite ?elem_of_cons, elem_of_nil; intuition discriminate|]).
    apply NoDup_nil_2.
Defined.

(** ** The construct and the handler together *)

Lemma service_secret synth props :
  secretKey (environment (lambdaProps (ImageOptimizationService synth props)))
    = Some (addr_md5 synth) /\
  lambda_origin (imageOrigin (ImageOptimizationService synth props))
    = Some [("x-origin-secret-header", addr_md5 synth)].
Proof.
  unfold ImageOptimizationService.
  destruct (existingS3ImageBucketName props), (storeTransformedImages props); now split.
Qed.

Lemma service_buckets synth props :
  let service := ImageOptimizationService synth props in
  originalImageBucketName (environment (lambdaProps service))
    = Some (originalImageBucket service) /\
  transformedImageBucketName (environment (lambdaProps service))
    = (if storeTransformedImages props then Some (newTransformedImageBucketName synth)
       else None).
Proof.
  cbn zeta. unfold ImageOptimizationService.
  destruct (existingS3ImageBucketName props), (storeTransformedImages props); now split.
Qed.

Lemma forwarded_authenticated env secret viewerHeaders request :
  secretKey env = Some secret -> secret <> "" ->
  Authenticated env (forwarded [("x-origin-secret-header", secret)] viewerHeaders request).
Proof.
  intros Hk Hs. exists secret. split; [|split; assumption].
  cbn. apply lookup_union_Some_l. apply lookup_insert_eq.
Qed.

(** X16: the secret of the Lambda and the secret of the origin are the same
    value.  A request that the distribution forwards to the Lambda carries the
    custom header of the origin, whatever the viewer sent under that name, so
    it passes the authentication gate and is never answered with 403. *)
Theorem forwarded_requests_are_authenticated synth props S3_getObject S3_putObject Sharp_new
    Sharp_chain elapsed viewerHeaders request :
  addr_md5 synth <> "" ->
  let service := ImageOptimizationService synth props in
  let env := environment (lambdaProps service) in
  exists customHeaders,
    lambda_origin (imageOrigin service) = Some customHeaders /\
    let event := forwarded customHeaders viewerHeaders request in
    Authenticated env event /\
    forall response,
      fst (run (handler env S3_getObject S3_putObject Sharp_new Sharp_chain elapsed event))
        = Returned response ->
      statusCode response <> 403.
Proof.
  intros Hs. cbn zeta. destruct (service_secret synth props) as [Hk Ho].
  eexists. split; [exact Ho|]. cbn zeta.
  assert (Ha : Authenticated (environment (lambdaProps (ImageOptimizationService synth props)))
                 (forwarded [("x-origin-secret-header", addr_md5 synth)] viewerHeaders request)).
  { now apply forwarded_authenticated. }
  split; [exact Ha|]. intros response H Hc.
  destruct (invoke_ends (environment (lambdaProps (ImageOptimizationService synth props)))
              S3_getObject S3_putObject Sharp_new Sharp_chain elapsed
              (forwarded [("x-origin-secret-header", addr_md5 synth)] viewerHeaders request))
    as [Hg | _ Hm | r t e Hr | r t i e Hr Hf Hn | r t i e Hr | r t i b e Hr
       | r t i b Hr | r t i b Hr];
    try discriminate H; injection H as <-; try discriminate Hc.
  now apply auth_gate_exclusive in Hg.
Qed.

Lemma forwarded_requests_are_authenticated_witness :
  let synth := {| addr_md5 := "c8f4a1d2"; newOriginalImageBucketName := "originals";
                  newTransformedImageBucketName := "transformed";
                  functionUrl := "https://abc.lambda-url.eu-west-1.on.aws/" |} in
  let env := environment (lambdaProps (ImageOptimizationService synth
                                         (DefaultImageOptimizationStack "eu-west-1"))) in
  Authenticated env
    (forwarded [("x-origin-secret-header", "c8f4a1d2")]
       {[ "x-origin-secret-header" := "guess" ]} {| method := "GET"; path := "/a/b/original" |}).
Proof.
  cbn zeta.
  assert (Hs : "c8f4a1d2" <> "") by discriminate.
  destruct (forwarded_requests_are_authenticated
              {| addr_md5 := "c8f4a1d2"; newOriginalImageBucketName := "originals";
                 newTransformedImageBucketName := "transformed";
                 functionUrl := "https://abc.lambda-url.eu-west-1.on.aws/" |}
              (DefaultImageOptimizationStack "eu-west-1")
              Mock.S3_getObject Mock.S3_putObject Mock.Sharp_new Mock.Sharp_chain Mock.elapsed
              {[ "x-origin-secret-header" := "guess" ]}
              {| method := "GET"; path := "/a/b/original" |} Hs)
    as (customHeaders & Ho & Ha & _).
  injection Ho as <-. exact Ha.
Defined.

Local Ltac find_call H :=
  cbn [fst snd] in H; unfold timing_log, error_log in H;
  repeat match type of H with
         | context [bool_decide ?P] => destruct (bool_decide P)
         end;
  repeat first
    [ discriminate H
    | apply elem_of_nil in H; destruct H
    | apply elem_of_app in H as [H | H]
    | apply elem_of_cons in H as [H | H] ].

(** X17: the Lambda is permitted what it does.  Run with the environment
    that the construct gives it, every fetch of the handler is a [GetObject]
    on the bucket of the originals and every write is a [PutObject] on the
    bucket of the transformed images, and the statements attached to the role
    of the Lambda allow both on all the objects of those buckets.  When the
    transformed images are not stored there is no write and no permission to
    write. *)
Theorem storage_calls_are_permitted synth props S3_getObject S3_putObject Sharp_new
    Sharp_chain elapsed event :
  let service := ImageOptimizationService synth props in
  let trace :=
    snd (run (handler (environment (lambdaProps service)) S3_getObject S3_putObject
                Sharp_new Sharp_chain elapsed event)) in
  (forall get, S3GetObject get ∈ trace ->
     get_Bucket get = Some (originalImageBucket service) /\
     allows "s3:GetObject" (objects_of (originalImageBucket service))
       (iamPolicyStatements service)) /\
  (forall put, S3PutObject put ∈ trace ->
     storeTransformedImages props = true /\
     put_Bucket put = Some (newTransformedImageBucketName synth) /\
     allows "s3:PutObject" (objects_of (newTransformedImageBucketName synth))
       (iamPolicyStatements service)) /\
  (storeTransformedImages props = false ->
   calls is_put trace = 0%nat /\
   forall resource, ~ allows "s3:PutObject" resource (iamPolicyStatements service)).
Proof.
  cbn zeta.
  destruct (service_buckets synth props) as [Ho Ht]. cbn zeta in Ho, Ht.
  set (service := ImageOptimizationService synth props) in *.
  set (env := environment (lambdaProps service)) in *.
  assert (Hread : allows "s3:GetObject" (objects_of (originalImageBucket service))
                    (iamPolicyStatements service)).
  { exists {| actions := ["s3:GetObject"];
              resources := [objects_of (originalImageBucket service)] |}.
    subst service. unfold ImageOptimizationService.
    destruct (existingS3ImageBucketName props), (storeTransformedImages props);
      cbn; rewrite !elem_of_cons; tauto. }
  assert (Hwrite : storeTransformedImages props = true ->
                   allows "s3:PutObject" (objects_of (newTransformedImageBucketName synth))
                     (iamPolicyStatements service)).
  { intros Hst.
    exists {| actions := ["s3:PutObject"];
              resources := [objects_of (newTransformedImageBucketName synth)] |}.
    subst service. unfold ImageOptimizationService. rewrite Hst.
    destruct (existingS3ImageBucketName props); cbn; rewrite !elem_of_cons; tauto. }
  assert (Hnone : storeTransformedImages props = false ->
                  forall resource, ~ allows "s3:PutObject" resource (iamPolicyStatements service)).
  { intros Hst resource (statement & Hin & Ha & _). revert Hin Ha.
    subst service. unfold ImageOptimizationService. rewrite Hst.
    destruct (existingS3ImageBucketName props); cbn;
      rewrite !elem_of_cons, elem_of_nil; intros [-> | []]; cbn;
      rewrite !elem_of_cons, elem_of_nil; intros [H | []]; discriminate H. }
  assert (Hstore : Js.truthy (transformedImageBucketName env) = true ->
                   storeTransformedImages props = true).
  { rewrite Ht. now destruct (storeTransformedImages props). }
  destruct (invoke_ends env S3_getObject S3_putObject Sharp_new Sharp_chain elapsed event)
    as [Hc | _ Hm | r t e Hr | r t i e Hr | r t i e Hr ? ? | r t i b e Hr Hf Hn ? ? Hc Hb Hw
       | r t i b Hr Hf Hn ? ? Hc Hb Hw | r t i b Hr Hf Hn ? Hc Hb];
    (split; [|split]);
    try (intros call Hin; find_call Hin; injection Hin as ->; cbn;
         first [ now split
               | split; [now apply Hstore|]; split; [|now apply Hwrite, Hstore];
                 rewrite Ht, (Hstore Hb); reflexivity ]);
    try (intros Hst; split; [|now apply Hnone];
         first [ solve_calls | rewrite (Hstore Hb) in Hst; discriminate Hst ]).
Qed.

(** X18: when the construct is asked to store the transformed images, every
    answer with status 200 was stored first: the trace has a successful
    [PutObject] of the very bytes of the answer, on the bucket that the
    construct created. *)
Theorem every_answer_is_stored_first synth props S3_getObject S3_putObject Sharp_new
    Sharp_chain elapsed event response :
  storeTransformedImages props = true ->
  newTransformedImageBucketName synth <> "" ->
  let env := environment (lambdaProps (ImageOptimizationService synth props)) in
  let result :=
    run (handler env S3_getObject S3_putObject Sharp_new Sharp_chain elapsed event) in
  fst result = Returned response ->
  statusCode response = 200 ->
  exists put,
    S3PutObject put ∈ snd result /\
    S3_putObject put = Resolved tt /\
    put_Bucket put = Some (newTransformedImageBucketName synth) /\
    body response = Js.base64 (put_Body put) /\
    Content_Type <$> response_headers response = Some (put_ContentType put).
Proof.
  intros Hst Hname. cbn zeta.
  destruct (service_buckets synth props) as [_ Ht]. cbn zeta in Ht. rewrite Hst in Ht.
  set (env := environment (lambdaProps (ImageOptimizationService synth props))) in *.
  intros H Hs.
  destruct (invoke_ends env S3_getObject S3_putObject Sharp_new Sharp_chain elapsed event)
    as [Hc | _ Hm | r t e Hr | r t i e Hr | r t i e Hr ? ? | r t i b e Hr Hf Hn ? ? Hc Hb Hw
       | r t i b Hr Hf Hn ? ? Hc Hb Hw | r t i b Hr Hf Hn ? Hc Hb];
    try discriminate H; injection H as <-; try discriminate Hs.
  - exists store. split; [|split; [exact Hw|split; [exact Ht|now split]]].
    rewrite elem_of_app. right. apply list_elem_of_here.
  - rewrite Ht, (truthy_nonempty _ Hname) in Hb. discriminate Hb.
Qed.

Lemma every_answer_is_stored_first_witness :
  let synth := {| addr_md5 := "0123abcd"; newOriginalImageBucketName := "originals";
                  newTransformedImageBucketName := "transformed";
                  functionUrl := "https://abc.lambda-url.eu-west-1.on.aws/" |} in
  let env := environment (lambdaProps (ImageOptimizationService synth
                                         (DefaultImageOptimizationStack "eu-west-1"))) in
  exists put,
    S3PutObject put
      ∈ snd (run (handler env Mock.S3_getObject Mock.S3_putObject Mock.Sharp_new
                    Mock.Sharp_chain Mock.elapsed
                    (Mock.request (Some "0123abcd") "GET" "/images/rio/1.jpg/width=8"))) /\
    put_Bucket put = Some "transformed".
Proof.
  cbn zeta.
  assert (Hn : "transformed" <> "") by discriminate.
  destruct (every_answer_is_stored_first
              {| addr_md5 := "0123abcd"; newOriginalImageBucketName := "originals";
                 newTransformedImageBucketName := "transformed";
                 functionUrl := "https://abc.lambda-url.eu-west-1.on.aws/" |}
              (DefaultImageOptimizationStack "eu-west-1")
              Mock.S3_getObject Mock.S3_putObject Mock.Sharp_new Mock.Sharp_chain Mock.elapsed
              (Mock.request (Some "0123abcd") "GET" "/images/rio/1.jpg/width=8")
              (image_response Mock.env (Body Mock.image) (Some "image/jpeg"))
              eq_refl Hn eq_refl eq_refl) as (put & Hin & _ & Hb & _).
  exists put. split; [exact Hin | exact Hb].
Defined.

(** X19: the props of the construct reach the answers.  An answer with status
    200 carries the cache control of the props, or "max-age=31622400" when
    they give none; and its invocation writes the timing line, the only thing
    it ever logs, exactly when the props ask for the timing log. *)
Theorem props_reach_the_answers synth props S3_getObject S3_putObject Sharp_new Sharp_chain
    elapsed event response :
  let env := environment (lambdaProps (ImageOptimizationService synth props)) in
  let result :=
    run (handler env S3_getObject S3_putObject Sharp_new Sharp_chain elapsed event) in
  fst result = Returned response ->
  statusCode response = 200 ->
  Cache_Control <$> response_headers response
    = Some (Some (default "max-age=31622400" (transformedImageCacheControl props))) /\
  calls is_log (snd result)
    = (if default false (imageTransformLambdaLogTiming props) then 1 else 0)%nat.
Proof.
  cbn zeta.
  assert (Hcc : transformedImageCacheTTL
                  (environment (lambdaProps (ImageOptimizationService synth props)))
                = Some (default "max-age=31622400" (transformedImageCacheControl props))).
  { unfold ImageOptimizationService.
    now destruct (existingS3ImageBucketName props), (storeTransformedImages props). }
  assert (Hlog : logTiming (environment (lambdaProps (ImageOptimizationService synth props)))
                 = Some (if default false (imageTransformLambdaLogTiming props)
                         then "true" else "false")).
  { unfold ImageOptimizationService.
    now destruct (existingS3ImageBucketName props), (storeTransformedImages props). }
  set (env := environment (lambdaProps (ImageOptimizationService synth props))) in *.
  intros H Hs.
  destruct (invoke_ends env S3_getObject S3_putObject Sharp_new Sharp_chain elapsed event)
    as [Hc | _ Hm | r t e Hr | r t i e Hr | r t i e Hr ? ? | r t i b e Hr Hf Hn ? ? Hc Hb Hw
       | r t i b Hr Hf Hn ? ? Hc Hb Hw | r t i b Hr Hf Hn ? Hc Hb];
    try discriminate H; injection H as <-; try discriminate Hs;
    (split; [cbn; now rewrite Hcc|]);
    unfold timing_log; rewrite Hlog;
    destruct (default false (imageTransformLambdaLogTiming props)); reflexivity.
Qed.

Lemma props_reach_the_answers_witness :
  Cache_Control <$> response_headers (image_response Mock.env (Body Mock.image) (Some "image/jpeg"))
    = Some (Some "max-age=31622400").
Proof.
  cbn zeta.
  exact (proj1 (props_reach_the_answers
                  {| addr_md5 := "0123abcd"; newOriginalImageBucketName := "originals";
                     newTransformedImageBucketName := "transformed";
                     functionUrl := "https://abc.lambda-url.eu-west-1.on.aws/" |}
                  (DefaultImageOptimizationStack "eu-west-1")
                  Mock.S3_getObject Mock.S3_putObject Mock.Sharp_new Mock.Sharp_chain
                  Mock.elapsed
                  (Mock.request (Some "0123abcd") "GET" "/images/rio/1.jpg/width=8")
                  (image_response Mock.env (Body Mock.image) (Some "image/jpeg"))
                  eq_refl eq_refl)).
Defined.

(** X20: the host name that the origin is given is the host of the URL of the
    Lambda: for a URL [scheme//host/rest] it is [host], and for a URL with
    fewer than two slashes there is none. *)
Theorem hostname_of_function_url synth props scheme host rest :
  includes "/" scheme = false ->
  includes "/" host = false ->
  functionUrl synth = scheme +:+ "//" +:+ host +:+ "/" +:+ rest ->
  imageProcessingHostname (functionUrl synth) = Some host /\
  lambda_domain (imageOrigin (ImageOptimizationService synth props)) = Some host /\
  imageProcessingHostname scheme = None /\
  imageProcessingHostname (scheme +:+ "/" +:+ host) = None.
Proof.
  intros Hs Hh Hu.
  assert (He : imageProcessingHostname (functionUrl synth) = Some host).
  { rewrite Hu. unfold imageProcessingHostname.
    change (scheme +:+ "//" +:+ host +:+ "/" +:+ rest)
      with (scheme +:+ String "/" ("" +:+ String "/" (host +:+ String "/" rest))).
    rewrite !split_app, (split_without _ _ Hs), (split_without _ _ Hh). reflexivity. }
  split; [exact He|]. split; [|split].
  - unfold ImageOptimizationService.
    destruct (existingS3ImageBucketName props), (storeTransformedImages props); exact He.
  - unfold imageProcessingHostname. now rewrite (split_without _ _ Hs).
  - unfold imageProcessingHostname.
    change (scheme +:+ "/" +:+ host) with (scheme +:+ String "/" host).
    now rewrite split_app, (split_without _ _ Hs), (split_without _ _ Hh).
Qed.

Lemma hostname_of_function_url_witness :
  imageProcessingHostname "https://abc.lambda-url.eu-west-1.on.aws/"
    = Some "abc.lambda-url.eu-west-1.on.aws".
Proof.
  exact (proj1 (hostname_of_function_url
                  {| addr_md5 := "0123abcd"; newOriginalImageBucketName := "originals";
                     newTransformedImageBucketName := "transformed";
                     functionUrl := "https://abc.lambda-url.eu-west-1.on.aws/" |}
                  (DefaultImageOptimizationStack "eu-west-1")
                  "https:" "abc.lambda-url.eu-west-1.on.aws" "" eq_refl eq_refl eq_refl)).
Defined.

(** X21: the sample images are reachable.  When the construct creates the
    bucket of the originals it deploys the samples under a key prefix, and a
    forwarded GET request for [/prefix name/token] makes the handler fetch the
    key [prefix name] from that bucket: the key under which the sample
    [name] was deployed. *)
Theorem sample_images_are_reachable synth props S3_getObject S3_putObject Sharp_new
    Sharp_chain elapsed viewerHeaders name token :
  existingS3ImageBucketName props = None ->
  addr_md5 synth <> "" ->
  includes "/" token = false ->
  let service := ImageOptimizationService synth props in
  exists prefix customHeaders rest,
    sampleImagesKeyPrefix service = Some prefix /\
    lambda_origin (imageOrigin service) = Some customHeaders /\
    snd (run (handler (environment (lambdaProps service)) S3_getObject S3_putObject
                Sharp_new Sharp_chain elapsed
                (forwarded customHeaders viewerHeaders
                   {| method := "GET"; path := "/" +:+ prefix +:+ name +:+ "/" +:+ token |})))
      = S3GetObject {| get_Bucket := Some (newOriginalImageBucketName synth);
                       get_Key := prefix +:+ name |} :: rest.
Proof.
  intros He Hs Ht. cbn zeta.
  destruct (service_secret synth props) as [Hk Ho].
  destruct (service_buckets synth props) as [Hb _]. cbn zeta in Hb.
  assert (Hp : sampleImagesKeyPrefix (ImageOptimizationService synth props) = Some "images/rio/"
               /\ originalImageBucket (ImageOptimizationService synth props)
                  = newOriginalImageBucketName synth).
  { unfold ImageOptimizationService. rewrite He.
    now destruct (storeTransformedImages props). }
  destruct Hp as [Hp Hn]. rewrite Hn in Hb.
  set (env := environment (lambdaProps (ImageOptimizationService synth props))) in *.
  set (request := {| method := "GET"; path := "/" +:+ "images/rio/" +:+ name +:+ "/" +:+ token |}).
  pose proof (forwarded_authenticated env _ viewerHeaders request Hk Hs) as Ha.
  assert (Hg : GetRequest (forwarded [("x-origin-secret-header", addr_md5 synth)]
                             viewerHeaders request) request) by now split.
  destruct (ends_begin_with_fetch _ _ _ _ _ _ _ _ _ _ Ha Hg
              (invoke_ends env S3_getObject S3_putObject Sharp_new Sharp_chain elapsed _))
    as [rest Hr].
  exists "images/rio/", [("x-origin-secret-header", addr_md5 synth)], rest.
  split; [exact Hp|]. split; [exact Ho|]. fold request. rewrite Hr.
  unfold fetch_request, originalImagePath. rewrite Hb. subst request. cbn [path].
  change ("/" +:+ "images/rio/" +:+ name +:+ "/" +:+ token)
    with ("" +:+ "/" +:+ ("images/rio/" +:+ name) +:+ "/" +:+ token).
  now rewrite (parsePath_shape "" _ _ eq_refl Ht).
Qed.

Lemma sample_images_are_reachable_witness :
  let synth := {| addr_md5 := "0123abcd"; newOriginalImageBucketName := "originals";
                  newTransformedImageBucketName := "transformed";
                  functionUrl := "https://abc.lambda-url.eu-west-1.on.aws/" |} in
  let service := ImageOptimizationService synth (DefaultImageOptimizationStack "eu-west-1") in
  exists rest,
    snd (run (handler (environment (lambdaProps service)) Mock.S3_getObject Mock.S3_putObject
                Mock.Sharp_new Mock.Sharp_chain Mock.elapsed
                (forwarded [("x-origin-secret-header", "0123abcd")] ∅
                   {| method := "GET"; path := "/images/rio/1.jpg/format=webp" |})))
      = S3GetObject {| get_Bucket := Some "originals"; get_Key := "images/rio/1.jpg" |} :: rest.
Proof.
  cbn zeta.
  assert (Hs : "0123abcd" <> "") by discriminate.
  destruct (sample_images_are_reachable
              {| addr_md5 := "0123abcd"; newOriginalImageBucketName := "originals";
                 newTransformedImageBucketName := "transformed";
                 functionUrl := "https://abc.lambda-url.eu-west-1.on.aws/" |}
              (DefaultImageOptimizationStack "eu-west-1")
              Mock.S3_getObject Mock.S3_putObject Mock.Sharp_new Mock.Sharp_chain Mock.elapsed
              ∅ "1.jpg" "format=webp" eq_refl Hs eq_refl)
    as (prefix & customHeaders & rest & Hp & Ho & Hr).
  injection Hp as <-. injection Ho as <-. exists rest. exact Hr.
Defined.

(** ** The entry points *)

Lemma shield_regions_are_fixed :
  map_Forall (fun _ shield => ORIGIN_SHIELD_MAPPING !! shield = Some shield)
    ORIGIN_SHIELD_MAPPING.
Proof.
  apply map_Forall_to_list.
  assert (H : forallb (fun entry => bool_decide (ORIGIN_SHIELD_MAPPING !! snd entry
                                                 = Some (snd entry)))
                (map_to_list ORIGIN_SHIELD_MAPPING) = true)
    by (vm_compute; reflexivity).
  rewrite forallb_forall in H. rewrite Forall_forall. intros [region shield] Hin.
  apply list_elem_of_In, H in Hin. exact (bool_decide_eq_true_1 _ Hin).
Qed.

(** X22: every Origin Shield region of the mapping is itself a region of the
    mapping and is mapped to itself.  So a start of the application in a
    region the mapping knows creates the staging and the production stack
    with one and the same Origin Shield region, and a start in that Origin
    Shield region creates the same stacks; a start without a region, or in a
    region the mapping does not know, throws and creates nothing. *)
Theorem origin_shield_is_a_fixed_point AWS_REGION :
  match main_of_region AWS_REGION with
  | inr stacks =>
      exists region shield,
        AWS_REGION = Some region /\
        ORIGIN_SHIELD_MAPPING !! region = Some shield /\
        ORIGIN_SHIELD_MAPPING !! shield = Some shield /\
        stacks = [("StagingStack", DefaultImageOptimizationStack shield);
                  ("ProductionStack", DefaultImageOptimizationStack shield)] /\
        main_of_region (Some shield) = inr stacks
  | inl error =>
      error = "CLOUDFRONT_ORIGIN_SHIELD_REGION is undefined." /\
      (AWS_REGION = None \/ exists region,
         AWS_REGION = Some region /\ ORIGIN_SHIELD_MAPPING !! region = None)
  end.
Proof.
  unfold main_of_region. cbv zeta.
  destruct AWS_REGION as [region|].
  - change (default "" (Some region)) with region.
    destruct (ORIGIN_SHIELD_MAPPING !! region) as [shield|] eqn:Hr.
    + pose proof (shield_regions_are_fixed region shield Hr) as Hs. cbv beta in Hs.
      exists region, shield. change (default "" (Some shield)) with shield.
      rewrite Hs. now repeat split.
    + split; [reflexivity|]. right. now exists region.
  - change (default "" None) with "".
    replace (ORIGIN_SHIELD_MAPPING !! "") with (@None string) by (vm_compute; reflexivity).
    split; [reflexivity | now left].
Qed.

(** X23: the two versions of the start script agree.  Given as context the
    Origin Shield region that the mapping has for [AWS_REGION], the script
    that reads the context creates stacks with the same props as the script
    that reads the mapping, under the names Staging and Production; and it
    throws when the other one throws. *)
Theorem start_scripts_agree AWS_REGION :
  match main_of_region AWS_REGION,
        main_of_context (ORIGIN_SHIELD_MAPPING !! default "" AWS_REGION) with
  | inr stacks, inr stacks' =>
      snd <$> stacks' = snd <$> stacks /\
      fst <$> stacks' = ["Staging"; "Production"] /\
      fst <$> stacks = ["StagingStack"; "ProductionStack"] /\
      Forall (fun stack => storeTransformedImages (snd stack) = true /\
                           existingS3ImageBucketName (snd stack) = None) stacks
  | inl _, inl _ => True
  | _, _ => False
  end.
Proof.
  unfold main_of_region, main_of_context. cbv zeta.
  destruct (ORIGIN_SHIELD_MAPPING !! default "" AWS_REGION); [|exact I].
  repeat split; repeat constructor.
Qed.

(** ** The successful invocation *)

(** X24: the good case.  For an authenticated GET request whose original is
    fetched, accepted by the engine and transformed, and whose write, if one
    is configured, succeeds, the answer has status 200, its body is the
    base64 text of the bytes of the engine, its content type is the one of
    the transformation and its cache control the configured one; the calls
    are the fetch, the two calls of the engine and, when configured, the
    write. *)
Theorem successful_invocation env S3_getObject S3_putObject Sharp_new Sharp_chain elapsed
    event request token image buffer :
  Authenticated env event ->
  GetRequest event request ->
  operationsPrefix (path request) = Some token ->
  S3_getObject (fetch_request env (path request)) = Resolved image ->
  Sharp_new (Body image) = None ->
  let plan := transformation (parseOperations token) (ContentType image) in
  let store := store_request env (path request) token buffer (snd plan) in
  Sharp_chain (Body image) (fst plan) = Resolved buffer ->
  (Js.truthy (transformedImageBucketName env) = true -> S3_putObject store = Resolved tt) ->
  let result :=
    run (handler env S3_getObject S3_putObject Sharp_new Sharp_chain elapsed event) in
  fst result =
    Returned {| statusCode := 200; body := Js.base64 buffer; isBase64Encoded := true;
                response_headers :=
                  Some {| Content_Type := snd plan;
                          Cache_Control := transformedImageCacheTTL env |} |} /\
  filter (fun e => is_log e = false) (snd result) =
    [S3GetObject (fetch_request env (path request)); SharpNew (Body image);
     SharpChain (Body image) (fst plan)]
    ++ (if Js.truthy (transformedImageBucketName env) then [S3PutObject store] else []).
Proof.
  intros Ha Hg Ht Hf Hn plan store Hc Hw. cbn zeta.
  destruct (Js.truthy (transformedImageBucketName env)) eqn:Hb.
  - rewrite (invoke_stored _ _ _ _ _ _ _ _ _ Ha Hg Ht _ Hf Hn _ Hc Hb (Hw eq_refl)).
    split; [reflexivity|]. unfold timing_log.
    now destruct (bool_decide (logTiming env = Some "true")).
  - rewrite (invoke_not_stored _ _ _ _ _ _ _ _ _ Ha Hg Ht _ Hf Hn _ Hc Hb).
    split; [reflexivity|]. unfold timing_log.
    now destruct (bool_decide (logTiming env = Some "true")).
Qed.

Lemma successful_invocation_witness :
  fst (run (handler Mock.env_no_store Mock.S3_getObject Mock.S3_putObject Mock.Sharp_new
              Mock.Sharp_chain Mock.elapsed
              (Mock.request (Some "0123abcd") "GET" "/images/rio/1.jpg/format=gif,height=90")))
    = Returned {| statusCode := 200; body := "SkZJRg=="; isBase64Encoded := true;
                  response_headers :=
                    Some {| Content_Type := Some "image/gif";
                            Cache_Control := Some "max-age=31622400" |} |}.
Proof.
  assert (Hw : Js.truthy (transformedImageBucketName Mock.env_no_store) = true ->
               Mock.S3_putObject
                 (store_request Mock.env_no_store "/images/rio/1.jpg/format=gif,height=90"
                    "format=gif,height=90" (Body Mock.image) (Some "image/gif"))
               = Resolved tt) by reflexivity.
  exact (proj1 (successful_invocation Mock.env_no_store Mock.S3_getObject Mock.S3_putObject
                  Mock.Sharp_new Mock.Sharp_chain Mock.elapsed _
                  {| method := "GET"; path := "/images/rio/1.jpg/format=gif,height=90" |}
                  "format=gif,height=90" Mock.image (Body Mock.image)
                  (mock_authenticated _ _ _ _) (mock_get_request _ _)
                  eq_refl eq_refl eq_refl eq_refl Hw)).
Defined.
